(** * git-emoji-commit: the command line wrapper, embedded and verified

    The repository ships two generations of the same tool in [src/cli.js]:
    the original CommonJS script (flags dispatch straight to [git commit])
    and its TypeScript successor (staged-file checks, prompts, commit).
    Both are embedded here, the first in [Module Legacy], the second in
    [Module Cli], over a common model of JavaScript strings and of the
    side effects the scripts perform (child processes, console, prompts). *)

From Stdlib Require Import String Ascii List Bool Arith NArith ZArith Lia.
From Stdlib Require Import DecimalString.
Import ListNotations.
Local Open Scope list_scope.
Local Open Scope string_scope.

(** ** JavaScript strings

    A string is a sequence of bytes, the UTF-8 encoding of the text.  The
    operations below are the [String.prototype] methods the scripts call.
    The texts the scripts read are well formed; the one text that is not
    is what [slice] leaves of a character of two UTF-16 code units. *)
Module JS.

Definition dquote : ascii := "034"%char.
Definition newline : ascii := "010"%char.
Definition esc : ascii := "027"%char.
Definition q : string := String dquote "".

(** [s.startsWith(p)] *)
Definition startsWith (s p : string) : bool := String.prefix p s.

(** [s.includes(sub)] *)
Fixpoint includes (s sub : string) : bool :=
  String.prefix sub s ||
  match s with
  | EmptyString => false
  | String _ rest => includes rest sub
  end.

(** [s.split(c)] for a separator of one character: never an empty array:
    the empty string splits into one empty piece. *)
Fixpoint split (c : ascii) (s : string) : list string :=
  match s with
  | EmptyString => [EmptyString]
  | String a rest =>
      if Ascii.eqb a c then EmptyString :: split c rest
      else match split c rest with
           | [] => [String a EmptyString]
           | piece :: pieces => String a piece :: pieces
           end
  end.

(** [array.join(",")], which is also what a template does to an array. *)
Definition join (l : list string) : string := String.concat "," l.

(** A byte that continues a character of several bytes. *)
Definition continuation (a : ascii) : bool :=
  ((128 <=? N_of_ascii a) && (N_of_ascii a <? 192))%N.

(** The first half of the surrogate pair of a character of four bytes,
    written as the three bytes of that surrogate. *)
Definition highSurrogate (z a b c : ascii) : list ascii :=
  let point := ((N_of_ascii z mod 8) * 262144 + (N_of_ascii a mod 64) * 4096
                + (N_of_ascii b mod 64) * 64 + N_of_ascii c mod 64)%N in
  let high := (55296 + (point - 65536) / 1024)%N in
  [ ascii_of_N 237;
    ascii_of_N (128 + (high / 64) mod 64);
    ascii_of_N (128 + high mod 64) ].

(** The text, last byte first, without its last UTF-16 code unit: the
    last character when it takes one, two or three bytes; of a character
    of four bytes, which is two code units, the first one stays. *)
Definition dropUnit (l : list ascii) : list ascii :=
  match l with
  | [] => []
  | c :: t =>
      if (N_of_ascii c <? 128)%N then t
      else
        match t with
        | b :: t2 =>
            if ((192 <=? N_of_ascii b) && (N_of_ascii b <? 224))%N && continuation c
            then t2
            else
              match t2 with
              | a :: t3 =>
                  if ((224 <=? N_of_ascii a) && (N_of_ascii a <? 240))%N
                     && continuation b && continuation c
                  then t3
                  else
                    match t3 with
                    | z :: t4 =>
                        if ((240 <=? N_of_ascii z) && (N_of_ascii z <? 248))%N
                           && continuation a && continuation b && continuation c
                        then (rev (highSurrogate z a b c) ++ t4)%list
                        else t
                    | [] => t
                    end
              | [] => t
              end
        | [] => t
        end
  end.

(** [s.slice(0, -1)]: the text without its last UTF-16 code unit. *)
Definition slice_0_m1 (s : string) : string :=
  string_of_list_ascii (rev (dropUnit (rev (list_ascii_of_string s)))).

(** White space and line terminators of ECMAScript, as UTF-8 sequences of
    one, two and three bytes. *)
Definition ws1 (a : ascii) : bool :=
  let n := nat_of_ascii a in
  (((9 <=? n) && (n <=? 13)) || (n =? 32))%nat.

Definition ws2 (a b : ascii) : bool :=
  ((nat_of_ascii a =? 194) && (nat_of_ascii b =? 160))%nat.

Definition ws3 (a b c : ascii) : bool :=
  let x := nat_of_ascii a in
  let y := nat_of_ascii b in
  let z := nat_of_ascii c in
  (((x =? 225) && (y =? 154) && (z =? 128)) ||
   ((x =? 226) && (y =? 128) &&
      (((128 <=? z) && (z <=? 138)) || (z =? 168) || (z =? 169) || (z =? 175))) ||
   ((x =? 226) && (y =? 129) && (z =? 159)) ||
   ((x =? 227) && (y =? 128) && (z =? 128)) ||
   ((x =? 239) && (y =? 187) && (z =? 191)))%nat.

Fixpoint trimStartL (l : list ascii) : list ascii :=
  match l with
  | [] => []
  | a :: t =>
      if ws1 a then trimStartL t
      else match t with
           | b :: t2 =>
               if ws2 a b then trimStartL t2
               else match t2 with
                    | c :: t3 => if ws3 a b c then trimStartL t3 else l
                    | [] => l
                    end
           | [] => l
           end
  end.

(** The same scan over the reversed text: the last byte comes first. *)
Fixpoint trimEndL (l : list ascii) : list ascii :=
  match l with
  | [] => []
  | c :: t =>
      if ws1 c then trimEndL t
      else match t with
           | b :: t2 =>
               if ws2 b c then trimEndL t2
               else match t2 with
                    | a :: t3 => if ws3 a b c then trimEndL t3 else l
                    | [] => l
                    end
           | [] => l
           end
  end.

(** [s.trim()] *)
Definition trim (s : string) : string :=
  string_of_list_ascii
    (rev (trimEndL (rev (trimStartL (list_ascii_of_string s))))).

(** The line terminators the regular expression [.] does not match. *)
Definition lineTerminator1 (a : ascii) : bool :=
  let n := nat_of_ascii a in ((n =? 10) || (n =? 13))%nat.

Definition lineTerminator3 (a b c : ascii) : bool :=
  ((nat_of_ascii a =? 226) && (nat_of_ascii b =? 128) &&
   ((nat_of_ascii c =? 168) || (nat_of_ascii c =? 169)))%nat.

(** What is left of [s] once [.*] has eaten all it can. *)
Fixpoint dotStar (s : string) : string :=
  match s with
  | EmptyString => EmptyString
  | String a rest =>
      if lineTerminator1 a then s
      else match rest with
           | String b (String c _) =>
               if lineTerminator3 a b c then s else dotStar rest
           | _ => dotStar rest
           end
  end.

(** [replace] with the pattern colon, then any run of characters: the
    first colon goes, with the rest of its line. *)
Fixpoint replaceColonRest (s : string) : string :=
  match s with
  | EmptyString => EmptyString
  | String a rest =>
      if Ascii.eqb a ":" then dotStar rest
      else String a (replaceColonRest rest)
  end.

(** [replace] with the pattern of one double quote: the first one goes. *)
Fixpoint replaceQuote (s : string) : string :=
  match s with
  | EmptyString => EmptyString
  | String a rest =>
      if Ascii.eqb a dquote then rest else String a (replaceQuote rest)
  end.

(** Truthiness of [array[0]]: [undefined] and the empty string are falsy. *)
Definition truthy (v : option string) : bool :=
  match v with
  | None => false
  | Some s => negb (String.eqb s "")
  end.

(** [a === b] for two values that are strings or [undefined]. *)
Definition strictEq (a b : option string) : bool :=
  match a, b with
  | Some x, Some y => String.eqb x y
  | None, None => true
  | _, _ => false
  end.

(** A value inside a template literal. *)
Definition template (v : option string) : string :=
  match v with
  | None => "undefined"
  | Some s => s
  end.

(** [String(n)] for a count. *)
Definition ofNat (n : nat) : string :=
  NilEmpty.string_of_uint (Nat.to_uint n).

(** [JSON.stringify(s)] of a string: quoted, with the escapes of JSON. *)
Definition hexDigit (n : nat) : ascii :=
  match String.get n "0123456789abcdef" with
  | Some c => c
  | None => "0"%char
  end.

Definition escapeChar (a : ascii) : string :=
  let n := nat_of_ascii a in
  if Ascii.eqb a dquote then String "\" (String dquote "")
  else if Ascii.eqb a "\" then "\\"
  else if (n =? 8)%nat then "\b"
  else if (n =? 12)%nat then "\f"
  else if (n =? 10)%nat then "\n"
  else if (n =? 13)%nat then "\r"
  else if (n =? 9)%nat then "\t"
  else if (n <? 32)%nat
       then "\u00" ++ String (hexDigit (n / 16)) (String (hexDigit (n mod 16)) "")
       else String a "".

Fixpoint escape (s : string) : string :=
  match s with
  | EmptyString => EmptyString
  | String a rest => escapeChar a ++ escape rest
  end.

Definition stringify (s : string) : string := q ++ escape s ++ q.

End JS.

(** ** Side effects

    A run of either script is a sequence of observable events.  What the
    environment answers (the children spawned through [child_process], the
    person at the terminal) is a [world]; a computation reads it and yields
    its events and how it ended. *)

(** [error.code] of a rejected child: the exit status, a system error name
    such as ENOENT, or [null] when a signal ended the child. *)
Inductive err_code : Type :=
| CodeNum (n : Z)
| CodeStr (s : string)
| CodeNull.

Record ExecException : Type := { code : err_code }.

(** The three arguments [child_process.exec] hands its callback. *)
Record child : Type := {
  child_error : option ExecException;
  child_stdout : string;
  child_stderr : string
}.

(** An argument of [console.log] or [console.error]. *)
Inductive arg : Type :=
| Str (s : string)
| Obj (e : ExecException).

Inductive event : Type :=
| Exec (command : string)                        (* a child is spawned *)
| ConsoleLog (args : list arg)
| ConsoleError (args : list arg)
| AskInput (message : string)                    (* an input prompt opens *)
| Typed (line : string)                          (* a line is entered at it *)
| AskList (message : string) (answer : string)   (* a list prompt, answered *)
| AskConfirm (message : string) (answer : bool). (* a confirm prompt, answered *)

Record world : Type := {
  shell : string -> child;      (* what each command line does *)
  confirm : string -> bool;     (* the answer to a confirm prompt, by message *)
  pick : nat;                   (* index of the entry chosen in a list prompt *)
  typed : list string           (* the lines entered at an input prompt *)
}.

(** How a computation ends: with a value, with a rejection nobody caught,
    or waiting for input that never comes. *)
Inductive outcome (A : Type) : Type :=
| Done (a : A)
| Thrown (e : ExecException)
| Pending.

Arguments Done {A} a.
Arguments Thrown {A} e.
Arguments Pending {A}.

Definition M (A : Type) : Type := world -> list event * outcome A.

Definition ret {A : Type} (a : A) : M A := fun _ => ([], Done a).

Definition bind {A B : Type} (m : M A) (k : A -> M B) : M B :=
  fun w =>
    match m w with
    | (t, Done a) => let (t', o) := k a w in ((t ++ t')%list, o)
    | (t, Thrown e) => (t, Thrown e)
    | (t, Pending) => (t, Pending)
    end.

Declare Scope js_scope.
Delimit Scope js_scope with js.
Notation "x <- c ;; k" := (bind c (fun x => k))
  (at level 100, c at next level, right associativity) : js_scope.
Notation "c ;; k" := (bind c (fun _ => k))
  (at level 100, right associativity) : js_scope.
Local Open Scope js_scope.

Definition emit (e : event) : M unit := fun _ => ([e], Done tt).

Definition throw {A : Type} (e : ExecException) : M A := fun _ => ([], Thrown e).

Definition pending {A : Type} : M A := fun _ => ([], Pending).

(** [try { m } catch (err) { h err }] *)
Definition try_catch {A : Type} (m : M A) (h : ExecException -> M A) : M A :=
  fun w =>
    match m w with
    | (t, Thrown e) => let (t', o) := h e w in ((t ++ t')%list, o)
    | r => r
    end.

Definition trace {A : Type} (r : list event * outcome A) : list event := fst r.
Definition result {A : Type} (r : list event * outcome A) : outcome A := snd r.

(** The exit status of the node process: 0 once the script has run to its
    end (neither script sets another one), 1 when a rejection stayed
    unhandled, none while it waits. *)
Definition exitStatus {A : Type} (o : outcome A) : option Z :=
  match o with
  | Done _ => Some 0%Z
  | Thrown _ => Some 1%Z
  | Pending => None
  end.

(** [child_process.exec(command, callback)]: the callback's arguments. *)
Definition spawn (command : string) : M child :=
  fun w => ([Exec command], Done (shell w command)).

Definition consoleLog (args : list arg) : M unit := emit (ConsoleLog args).
Definition consoleError (args : list arg) : M unit := emit (ConsoleError args).

(** ** The prompts of inquirer *)
Module Inquirer.

(** What a [validate] function returned. *)
Inductive verdict : Type :=
| VBool (b : bool)
| VNum (n : Z).

(** A line is taken when [validate] returned exactly [true]. *)
Definition accepted (v : verdict) : bool :=
  match v with
  | VBool true => true
  | _ => false
  end.

Fixpoint inputLoop (validate : string -> M verdict) (lines : list string) : M string :=
  match lines with
  | [] => pending
  | line :: rest =>
      emit (Typed line) ;;
      v <- validate line ;;
      if accepted v then ret line else inputLoop validate rest
  end.

(** [type: input]: asks again until a line is valid. *)
Definition promptInput (message : string) (validate : string -> M verdict) : M string :=
  emit (AskInput message) ;;
  fun w => inputLoop validate (typed w) w.

(** [type: list]: the answer is one of the choices (an index past the
    end stands for the first entry). *)
Definition promptList (message : string) (choices : list string) : M string :=
  fun w =>
    let answer := nth (pick w) choices (hd EmptyString choices) in
    ([AskList message answer], Done answer).

(** [type: confirm] *)
Definition promptConfirm (message : string) : M bool :=
  fun w => ([AskConfirm message (confirm w message)], Done (confirm w message)).

End Inquirer.

(** ** The TypeScript script (second part of [src/cli.js]) *)
Module Cli.

Definition STAGED_FILES_WARNING_THRESHOLD : nat := 30.

Record CommitType : Type := {
  emoji : string;
  name : string;
  description : string
}.

(** The table, keys in the order they are written: [Object.values] walks
    it in that order. *)
Definition commitTypes : list (string * CommitType) :=
  [ ("feat", {| emoji := "📦"; name := "feat"; description := "new feature" |});
    ("style", {| emoji := "💅"; name := "style"; description := "layout or style change" |});
    ("fix", {| emoji := "🐛"; name := "fix"; description := "fix bug" |});
    ("chore", {| emoji := "🧹"; name := "chore";
                 description := "update packages, gitignore etc; (no prod code)" |});
    ("doc", {| emoji := "📖"; name := "doc"; description := "documentation" |});
    ("refactor", {| emoji := "🛠 "; name := "refactor"; description := "refactoring" |});
    ("content", {| emoji := "📝"; name := "content"; description := "content changes" |});
    ("test", {| emoji := "✅"; name := "test"; description := "add/edit tests (no prod code)" |});
    ("try", {| emoji := "🤞"; name := "try"; description := "add untested to production" |});
    ("build", {| emoji := "🚀"; name := "build"; description := "build for production" |}) ].

Definition values (table : list (string * CommitType)) : list CommitType :=
  map snd table.

(** [program.opts()] after the parse: one boolean per declared option. *)
Record options : Type := {
  learn : bool;
  feat : bool;
  style : bool;
  fix_ : bool;
  chore : bool;
  doc : bool;
  refactor : bool;
  test : bool;
  try : bool;
  build : bool
}.

(** An [option(flags, description)] declaration of the parser. *)
Record declaration : Type := {
  short : option string;
  long : string;
  help : string
}.

Definition declarations : list declaration :=
  [ {| short := None; long := "--learn"; help := "learn more about commit types" |};
    {| short := Some "-f"; long := "--feat"; help := "add new feature" |};
    {| short := Some "-s"; long := "--style"; help := "edit/add styles" |};
    {| short := Some "-x"; long := "--fix"; help := "squash bugs" |};
    {| short := Some "-c"; long := "--chore"; help := "add untested to production" |};
    {| short := Some "-d"; long := "--doc"; help := "add/edit documentation & content" |};
    {| short := Some "-r"; long := "--refactor"; help := "refactor or rework" |};
    {| short := Some "-t"; long := "--test"; help := "add/edit test" |};
    {| short := Some "-y"; long := "--try"; help := "add untested to production" |};
    {| short := Some "-b"; long := "--build"; help := "build for production" |} ].

Definition msgCommitMessage : string := "What's your commit title/message?".
Definition msgCommitType : string := "Select a commit type:".
Definition msgInvalid : string := "😕  Please enter a valid commit message.".

(** [questions[0].validate] *)
Definition validate (value : string) : M Inquirer.verdict :=
  if negb (String.eqb value "") then ret (Inquirer.VBool true)
  else
    consoleLog [Str msgInvalid] ;;
    ret (Inquirer.VNum 0).

(** [questions[0].when]: there is no commit message. *)
Definition when (args : list string) : bool :=
  negb (JS.truthy (hd_error args)) || (length args =? 0)%nat.

(** [questions[1].choices] *)
Definition choices : list string :=
  map (fun type => name type ++ " " ++ emoji type ++ ": " ++ description type)
      (values commitTypes).

Record answers : Type := {
  commitMessage : option string;
  commitType : string
}.

(** [inquirer.prompt(questions)]: the questions in order, the first one
    only when its [when] holds. *)
Definition prompt (args : list string) : M answers :=
  message <- (if when args
              then (line <- Inquirer.promptInput msgCommitMessage validate ;; ret (Some line))
              else ret None) ;;
  type <- Inquirer.promptList msgCommitType choices ;;
  ret {| commitMessage := message; commitType := type |}.

Record ExecResult : Type := {
  stdout : string;
  stderr : string
}.

(** The promise around [child_process.exec]: rejected with the error when
    there is one. *)
Definition exec (command : string) : M ExecResult :=
  c <- spawn command ;;
  match child_error c with
  | Some error => throw error
  | None => ret {| stdout := child_stdout c; stderr := child_stderr c |}
  end.

Definition green : string := String JS.esc "[32m".
Definition white : string := String JS.esc "[37m".
Definition cmdVersion : string := "npm show git-emoji-commit version".
Definition cmdStaged : string := "git diff --cached --name-only".

Section Installed.

(** The version the package was built with, imported from [version.js]. *)
Variable version : string.

(** The test of [checkVersion]: major or minor component differs. *)
Definition outdated (latestVersion currentVersion : string) : bool :=
  negb (JS.strictEq (nth_error (JS.split "." latestVersion) 0)
                     (nth_error (JS.split "." currentVersion) 0))
  || negb (JS.strictEq (nth_error (JS.split "." latestVersion) 1)
                        (nth_error (JS.split "." currentVersion) 1)).

Definition updateNotice (latestVersion : string) : list arg :=
  [ Str green; Str ("😎  Update available: " ++ latestVersion); Str white;
    Str "run $ npm update -g git-emoji-commit" ].

Definition checkVersion : M unit :=
  try_catch
    (r <- exec cmdVersion ;;
     let latestVersion := JS.trim (stdout r) in
     let currentVersion := version in
     if outdated latestVersion currentVersion
     then consoleLog (updateNotice latestVersion)
     else ret tt)
    (fun err => consoleError [Str "Error checking for updates:"; Obj err]).

Definition getStagedFiles : M (list string) :=
  try_catch
    (r <- exec cmdStaged ;;
     ret (JS.split JS.newline (JS.trim (stdout r))))
    (fun err =>
       match code err with
       | CodeNum 1 => ret []
       | _ => throw err
       end).

Definition commitCommand (commitTypeFormated commitMessage : string) : string :=
  "git commit -m " ++ JS.q ++ commitTypeFormated ++ ": " ++ commitMessage ++ JS.q.

Definition msgUnmerged : string :=
  "Error: Committing is not possible because you have unmerged files.".
Definition msgResolve : string := "Please resolve the conflicts and try again.".
Definition msgUnknown : string := "An unknown error occurred:".

Definition makeCommit (commitType commitMessage : string) : M unit :=
  let commitTypeFormated := JS.replaceQuote (JS.replaceColonRest commitType) in
  try_catch
    (r <- exec (commitCommand commitTypeFormated commitMessage) ;;
     (if (0 <? String.length (stdout r))%nat
      then consoleLog [Str ("* " ++ stdout r)] else ret tt) ;;
     (if (0 <? String.length (stderr r))%nat
      then consoleLog [Str ("# " ++ stderr r)] else ret tt) ;;
     checkVersion)
    (fun err =>
       match code err with
       | CodeNum 128 =>
           consoleError [Str msgUnmerged] ;;
           consoleError [Str msgResolve]
       | _ => consoleError [Str msgUnknown; Obj err]
       end).

Definition msgNodeModules : string :=
  "🤔 'node_modules/' is staged for commit. Are you sure you want to continue?".

Definition confirmCommitWithNodeModules : M bool :=
  Inquirer.promptConfirm msgNodeModules.

Definition msgManyFiles (stagedFilesCount : nat) : string :=
  "🤔 You are committing " ++ JS.ofNat stagedFilesCount
  ++ " (many) files. Are you sure you want to continue?".

Definition confirmCommitHasManyFiles (stagedFilesCount : nat) : M bool :=
  Inquirer.promptConfirm (msgManyFiles stagedFilesCount).

Definition msgLearn : string :=
  "📚 Learn more about commit types here: https://www.conventionalcommits.org/en/v1.0.0/#summary".
Definition msgNoFiles : string :=
  "🤷 There are no files staged to commit. Stage some files then try again.".
Definition msgCanceled : string := "❌ Commit canceled.".
Definition msgLooksGood : string := "👍 Commit message looks good.".

(** The type whose prefix (emoji, two spaces, name) the message bears. *)
Definition recognized (commitMessage : string) : option CommitType :=
  find (fun type => JS.startsWith commitMessage (emoji type ++ "  " ++ name type))
       (values commitTypes).

(** [main] from the line that reads [program.args[0]] to its end. *)
Definition mainMessage (args : list string) : M unit :=
  let message := hd_error args in
  if negb (JS.truthy message) then
    answers <- prompt args ;;
    makeCommit (commitType answers) (JS.template (commitMessage answers))
  else
    match recognized (JS.template message) with
    | None =>
        answers <- prompt args ;;
        makeCommit (commitType answers) (JS.template message)
    | Some _ => consoleLog [Str msgLooksGood]
    end.

(** [main] from the test of the threshold to its end. *)
Definition mainManyFiles (stagedFiles args : list string) : M unit :=
  if (STAGED_FILES_WARNING_THRESHOLD <? length stagedFiles)%nat then
    shouldProceed <- confirmCommitHasManyFiles (length stagedFiles) ;;
    if negb shouldProceed then consoleLog [Str msgCanceled]
    else mainMessage args
  else mainMessage args.

Definition hasNodeModules (stagedFiles : list string) : bool :=
  existsb (fun file => JS.includes file "node_modules") stagedFiles.

(** The script: every [return] of the source ends a branch here. *)
Definition main (opts : options) (args : list string) : M unit :=
  if learn opts then consoleLog [Str msgLearn]
  else
    stagedFiles <- getStagedFiles ;;
    if (length stagedFiles =? 0)%nat then consoleLog [Str msgNoFiles]
    else if hasNodeModules stagedFiles then
      shouldProceed <- confirmCommitWithNodeModules ;;
      if negb shouldProceed then consoleLog [Str msgCanceled]
      else mainManyFiles stagedFiles args
    else mainManyFiles stagedFiles args.

End Installed.

End Cli.

(** ** The original script (first part of [src/cli.js]) *)
Module Legacy.

(** An [option(flags, description)] declaration of the parser, its flags
    split into the short and the long form. *)
Record declaration : Type := {
  short : string;
  long : string;
  help : string
}.

Definition declarations : list declaration :=
  [ {| short := "-s"; long := "--style"; help := "edit/add styles" |};
    {| short := "-b"; long := "--bug"; help := "squash bugs" |};
    {| short := "-i"; long := "--improve"; help := "refactor or rework" |};
    {| short := "-r"; long := "--release"; help := "release feature" |};
    {| short := "-n"; long := "--new"; help := "add new feature" |};
    {| short := "-d"; long := "--doc"; help := "add/edit documentation" |};
    {| short := "-r"; long := "--try"; help := "add untested to production" |};
    {| short := "-t"; long := "--test"; help := "add/edit test" |} ].

(** [program] after the parse: one property per option, and the words
    that were no option. *)
Record program : Type := {
  style : bool;
  bug : bool;
  improve : bool;
  release : bool;
  new : bool;
  doc : bool;
  try : bool;
  test : bool;
  args : list string
}.

Definition choices : list string :=
  [ "🐛  BUG: fix/squash bug";
    "📖  DOC: documentation";
    "⚡  IMPROVE: refactoring";
    "📦  NEW: addition";
    "💅  STYLE: layout or style change";
    "✅  TEST: add/edit tests";
    "🤞  TRY: add untested to production";
    "🚀  RELEASE: release feature" ].

Definition msgCommitType : string := "Select a commit message type:".
Definition msgCommitMessage : string := "What's your commit title/message?".
Definition msgInvalid : string := "😕  Please enter a valid commit message.".
Definition msgPick : string := "Pick a commit type. See more: gc --help".
Definition green : string := String JS.esc "[32m".
Definition white : string := String JS.esc "[37m".
Definition cmdVersion : string := "npm show git-emoji-commit version".

(** [validate] of the commit message prompt. *)
Definition validate (value : string) : M Inquirer.verdict :=
  if negb (String.eqb value "") then ret (Inquirer.VBool true)
  else
    consoleLog [Str msgInvalid] ;;
    ret (Inquirer.VNum 0).

Section Installed.

(** [pjson.version], read from [package.json]. *)
Variable version : string.

(** The test of [checkVersion]: both versions without their last
    character. *)
Definition outdated (stdout : string) : bool :=
  negb (String.eqb (JS.slice_0_m1 (JS.trim version))
                   (JS.slice_0_m1 (JS.trim stdout))).

Definition updateNotice (stdout : string) : list arg :=
  [ Str green; Str ("😎  Update available: " ++ stdout); Str white;
    Str "run $ npm update i -g git-emoji-commit" ].

Definition checkVersion : M unit :=
  c <- spawn cmdVersion ;;
  if outdated (child_stdout c)
  then consoleLog (updateNotice (child_stdout c))
  else ret tt.

Definition makeCommit (command : string) : M unit :=
  c <- spawn command ;;
  consoleLog [Str (child_stdout c)] ;;
  checkVersion.

(** The command line of a commit: label, colon, message, all quoted. *)
Definition commitCommand (label message : string) : string :=
  "git commit -m " ++ JS.q ++ label ++ ": " ++ message ++ JS.q.

(** The branch without a flag: the type is asked for (its [when] compares
    an answer that no question gives, so it always holds), then the
    message when the command line has none. *)
Definition interactive (p : program) : M unit :=
  consoleLog [Str msgPick] ;;
  answer <- Inquirer.promptList msgCommitType choices ;;
  let commitType := JS.stringify answer in
  let commitTypeCleaned := JS.replaceQuote (JS.replaceColonRest commitType) in
  (if negb (JS.truthy (hd_error (args p))) || (length (args p) =? 0)%nat
   then
     commitMessage <- Inquirer.promptInput msgCommitMessage validate ;;
     makeCommit (commitCommand commitTypeCleaned commitMessage)
   else ret tt) ;;
  (if JS.truthy (hd_error (args p))
   then makeCommit (commitCommand commitTypeCleaned (JS.join (args p)))
   else ret tt).

(** The body of the script: the first flag that is set decides. *)
Definition script (p : program) : M unit :=
  if style p then makeCommit (commitCommand "💅  STYLE" (JS.join (args p)))
  else if bug p then makeCommit (commitCommand "🐛  BUG" (JS.join (args p)))
  else if improve p then makeCommit (commitCommand "⚡  IMPROVE" (JS.join (args p)))
  else if release p then makeCommit (commitCommand "🚀  RELEASE" (JS.join (args p)))
  else if new p then makeCommit (commitCommand "📦  NEW" (JS.join (args p)))
  else if doc p then makeCommit (commitCommand "📖  DOC" (JS.join (args p)))
  else if try p then makeCommit (commitCommand "🤞  TRY" (JS.join (args p)))
  else if test p then makeCommit (commitCommand "✅  TEST" (JS.join (args p)))
  else interactive p.

End Installed.

End Legacy.

(** ** Reading a run *)

(** A command line that asks git for a commit. *)
Definition isCommit (command : string) : bool := String.prefix "git commit" command.

(** The commit commands a trace spawned, in order. *)
Fixpoint commitsOf (t : list event) : list string :=
  match t with
  | [] => []
  | Exec command :: rest =>
      if isCommit command then command :: commitsOf rest else commitsOf rest
  | _ :: rest => commitsOf rest
  end.

(** Events that neither spawn a commit nor ask for a commit type: prompts
    for text or for a confirmation, console output, the version query. *)
Definition quiet (e : event) : Prop :=
  match e with
  | Exec command => isCommit command = false
  | AskList _ _ => False
  | _ => True
  end.

(** Console output and the version query: what follows a commit. *)
Definition reporting (e : event) : Prop :=
  match e with
  | Exec command => command = Cli.cmdVersion
  | ConsoleLog _ => True
  | ConsoleError _ => True
  | _ => False
  end.

(** What the input prompt leaves in a trace. *)
Definition typing (e : event) : Prop :=
  match e with
  | AskInput message => message = Cli.msgCommitMessage
  | Typed _ => True
  | ConsoleLog args => args = [Str Cli.msgInvalid]
  | _ => False
  end.

(** The run gets past the checks of the staged files: no [--learn], a
    listing that is not empty, and a yes to each confirmation asked. *)
Definition passesChecks (opts : Cli.options) (w : world) : Prop :=
  Cli.learn opts = false /\
  exists stagedFiles,
    result (Cli.getStagedFiles w) = Done stagedFiles /\
    stagedFiles <> [] /\
    (Cli.hasNodeModules stagedFiles = true -> confirm w Cli.msgNodeModules = true) /\
    (Cli.STAGED_FILES_WARNING_THRESHOLD < length stagedFiles ->
     confirm w (Cli.msgManyFiles (length stagedFiles)) = true).

(** The options with every commit-type flag cleared. *)
Definition onlyLearn (opts : Cli.options) : Cli.options :=
  {| Cli.learn := Cli.learn opts; Cli.feat := false; Cli.style := false;
     Cli.fix_ := false; Cli.chore := false; Cli.doc := false;
     Cli.refactor := false; Cli.test := false; Cli.try := false;
     Cli.build := false |}.

(** The label [makeCommit] cuts out of a chosen entry. *)
Definition formatted (commitType : string) : string :=
  JS.replaceQuote (JS.replaceColonRest commitType).

(** What the checks before the commit message leave in a trace. *)
Definition gateEvent (e : event) : Prop :=
  match e with
  | Exec command => command = Cli.cmdStaged
  | AskConfirm _ _ => True
  | _ => False
  end.

(** The confirmations the checks of the staged files ask for. *)
Definition gate1 (stagedFiles : list string) (w : world) : list event :=
  if Cli.hasNodeModules stagedFiles
  then [AskConfirm Cli.msgNodeModules (confirm w Cli.msgNodeModules)]
  else [].

Definition gate2 (stagedFiles : list string) (w : world) : list event :=
  if (Cli.STAGED_FILES_WARNING_THRESHOLD <? length stagedFiles)%nat
  then [AskConfirm (Cli.msgManyFiles (length stagedFiles))
          (confirm w (Cli.msgManyFiles (length stagedFiles)))]
  else [].

(** The label the script cuts out of the chosen entry. *)
Definition cleaned (answer : string) : string :=
  JS.replaceQuote (JS.replaceColonRest (JS.stringify answer)).

(** ** Sample runs *)

Definition succeeds (stdout : string) : child :=
  {| child_error := None; child_stdout := stdout; child_stderr := "" |}.

Definition fails (status : Z) : child :=
  {| child_error := Some {| code := CodeNum status |};
     child_stdout := ""; child_stderr := "" |}.

(** A terminal and a working tree: what the listing of the staged files,
    the commit and the registry answer, whether confirmations get a yes,
    the entry picked and the lines typed. *)
Definition sample (listing commit registry : child) (yes : bool) (entry : nat)
           (lines : list string) : world :=
  {| shell := fun command =>
                if String.eqb command Cli.cmdStaged then listing
                else if String.eqb command Cli.cmdVersion then registry
                else commit;
     confirm := fun _ => yes;
     pick := entry;
     typed := lines |}.

Definition lines (l : list string) : string :=
  String.concat (String JS.newline "") l.

(** Nothing is staged: the listing prints nothing and exits with 0. *)
Definition nothingStaged : world :=
  sample (succeeds "") (fails 1) (succeeds "1.2.9") true 2 ["wip"].

(** One file is staged and git refuses the commit with status 1. *)
Definition commitRefused : world :=
  sample (succeeds (lines ["src/cli.ts"; ""])) (fails 1) (succeeds "1.2.9") true 2 ["wip"].

(** One file is staged, the tree has unmerged files: status 128. *)
Definition unmerged : world :=
  sample (succeeds (lines ["src/cli.ts"; ""])) (fails 128) (succeeds "1.2.9") true 2 ["wip"].

(** One file is staged and the commit goes through; the first line typed
    at the prompt is empty. *)
Definition commitAccepted : world :=
  sample (succeeds (lines ["src/cli.ts"; ""])) (succeeds "[main 1a2b3c4] done")
         (succeeds "1.2.9") true 2 [""; "wip"].

(** A vendored file is staged and the confirmation is declined. *)
Definition vendoredDeclined : world :=
  sample (succeeds (lines ["node_modules/left-pad/index.js"; "src/cli.ts"; ""]))
         (succeeds "") (succeeds "1.2.9") false 2 ["wip"].

(** A vendored file is staged and every confirmation gets a yes. *)
Definition vendoredConfirmed : world :=
  sample (succeeds (lines ["node_modules/left-pad/index.js"; "src/cli.ts"; ""]))
         (succeeds "") (succeeds "1.2.9") true 2 ["wip"].

(** Thirty-one files are staged. *)
Definition thirtyOne (yes : bool) : world :=
  sample (succeeds (lines (repeat "a.js" 31))) (succeeds "") (succeeds "1.2.9") yes 2 ["wip"].

(** The registry has 1.2.10 while 1.2.9 is installed. *)
Definition patchRelease : world :=
  sample (succeeds (lines ["src/cli.ts"; ""])) (succeeds "")
         (succeeds (lines ["1.2.10"; ""])) true 2 ["wip"].

Definition plain : Cli.options :=
  {| Cli.learn := false; Cli.feat := false; Cli.style := false; Cli.fix_ := false;
     Cli.chore := false; Cli.doc := false; Cli.refactor := false; Cli.test := false;
     Cli.try := false; Cli.build := false |}.

Definition withFeat : Cli.options :=
  {| Cli.learn := false; Cli.feat := true; Cli.style := false; Cli.fix_ := false;
     Cli.chore := false; Cli.doc := false; Cli.refactor := false; Cli.test := false;
     Cli.try := false; Cli.build := false |}.

Definition noFlag (words : list string) : Legacy.program :=
  {| Legacy.style := false; Legacy.bug := false; Legacy.improve := false;
     Legacy.release := false; Legacy.new := false; Legacy.doc := false;
     Legacy.try := false; Legacy.test := false; Legacy.args := words |}.

(** The flags of the original script. *)
Inductive flag : Type :=
| Style | Bug | Improve | Release | New | Doc | Try | Test.

(** The command line with exactly one flag. *)
Definition only (f : flag) (words : list string) : Legacy.program :=
  {| Legacy.style := match f with Style => true | _ => false end;
     Legacy.bug := match f with Bug => true | _ => false end;
     Legacy.improve := match f with Improve => true | _ => false end;
     Legacy.release := match f with Release => true | _ => false end;
     Legacy.new := match f with New => true | _ => false end;
     Legacy.doc := match f with Doc => true | _ => false end;
     Legacy.try := match f with Try => true | _ => false end;
     Legacy.test := match f with Test => true | _ => false end;
     Legacy.args := words |}.

(** The short forms the TypeScript script declares. *)
Definition shortForms : list string :=
  flat_map (fun d => match Cli.short d with Some s => [s] | None => [] end)
           Cli.declarations.

(** ** Words *)

(** A byte that shows as a character of its own: ASCII, no blank and no
    control character. *)
Definition visible (a : ascii) : bool :=
  ((33 <=? nat_of_ascii a) && (nat_of_ascii a <=? 126))%nat.

Fixpoint allVisible (s : string) : bool :=
  match s with
  | EmptyString => true
  | String a rest => visible a && allVisible rest
  end.

(** A text of one or more visible characters: a path or a version as the
    tools print them. *)
Definition word (s : string) : bool := negb (String.eqb s "") && allVisible s.

Definition startsVisible (l : list ascii) : Prop :=
  match l with
  | a :: _ => visible a = true
  | [] => False
  end.

(** What the original script leaves in a trace before it commits: its
    hint, the prompts and the lines typed. *)
Definition asking (e : event) : Prop :=
  match e with
  | Exec _ => False
  | ConsoleError _ => False
  | AskConfirm _ _ => False
  | _ => True
  end.

(** The flag [f] is set on the command line. *)
Definition isSet (f : flag) (p : Legacy.program) : bool :=
  match f with
  | Style => Legacy.style p
  | Bug => Legacy.bug p
  | Improve => Legacy.improve p
  | Release => Legacy.release p
  | New => Legacy.new p
  | Doc => Legacy.doc p
  | Try => Legacy.try p
  | Test => Legacy.test p
  end.

(** The place of a flag in the order the original script tests them. *)
Definition rank (f : flag) : nat :=
  match f with
  | Style => 0 | Bug => 1 | Improve => 2 | Release => 3
  | New => 4 | Doc => 5 | Try => 6 | Test => 7
  end.

(** The place of the entry of a flag in the list of the type prompt. *)
Definition entryOf (f : flag) : nat :=
  match f with
  | Bug => 0 | Doc => 1 | Improve => 2 | New => 3
  | Style => 4 | Test => 5 | Try => 6 | Release => 7
  end.

(** The label the original script commits under for a flag. *)
Definition labelOf (f : flag) : string :=
  match f with
  | Style => "💅  STYLE"
  | Bug => "🐛  BUG"
  | Improve => "⚡  IMPROVE"
  | Release => "🚀  RELEASE"
  | New => "📦  NEW"
  | Doc => "📖  DOC"
  | Try => "🤞  TRY"
  | Test => "✅  TEST"
  end.

(** A prompt, or a line typed at one. *)
Definition isPrompt (e : event) : Prop :=
  match e with
  | AskInput _ => True
  | Typed _ => True
  | AskList _ _ => True
  | AskConfirm _ _ => True
  | _ => False
  end.

(** * Facts *)

(** ** The string operations on the texts of the scripts *)

Example split_empty_text : JS.split JS.newline "" = [""].
Proof. reflexivity. Qed.

Example split_listing :
  JS.split JS.newline (JS.trim (lines ["a.js"; "b/c.js"; ""])) = ["a.js"; "b/c.js"].
Proof. reflexivity. Qed.

Example trim_line_separator :
  JS.trim (" 1.2.3 " ++ String (ascii_of_nat 226) (String (ascii_of_nat 128)
                          (String (ascii_of_nat 168) "")))
  = "1.2.3".
Proof. reflexivity. Qed.

Example slice_drops_last_character : JS.slice_0_m1 "1.2.10" = "1.2.1".
Proof. reflexivity. Qed.

Example slice_of_one_character :
  JS.slice_0_m1 "é" = "" /\ JS.slice_0_m1 "1€" = "1" /\ JS.slice_0_m1 "" = "".
Proof. repeat split. Qed.

Example slice_of_surrogate_pair :
  JS.slice_0_m1 "1😎"
  = String "1" (String (ascii_of_nat 237) (String (ascii_of_nat 160)
                                              (String (ascii_of_nat 189) ""))).
Proof. reflexivity. Qed.

Example refactor_prefix :
  Cli.recognized "🛠   refactor: wip"
  = Some {| Cli.emoji := "🛠 "; Cli.name := "refactor"; Cli.description := "refactoring" |}
  /\ Cli.recognized "🛠  refactor: wip" = None.
Proof. split; reflexivity. Qed.

Example count_in_decimal : JS.ofNat 31 = "31".
Proof. reflexivity. Qed.

Example stringify_escapes :
  JS.stringify (String JS.newline "a\b") = JS.q ++ "\na\\b" ++ JS.q.
Proof. reflexivity. Qed.

Example label_of_entry : formatted "feat 📦: new feature" = "feat 📦".
Proof. reflexivity. Qed.

Example label_of_legacy_entry : cleaned "🐛  BUG: fix/squash bug" = "🐛  BUG".
Proof. reflexivity. Qed.

Example prefix_recognized :
  Cli.recognized "📦  feat: wip"
  = Some {| Cli.emoji := "📦"; Cli.name := "feat"; Cli.description := "new feature" |}.
Proof. reflexivity. Qed.

Example prefix_with_one_space : Cli.recognized "📦 feat: wip" = None.
Proof. reflexivity. Qed.

Example prefix_of_own_commit : Cli.recognized "feat 📦: wip" = None.
Proof. reflexivity. Qed.

(** ** Lists and traces *)

Lemma commitsOf_app (a b : list event) :
  commitsOf (a ++ b)%list = (commitsOf a ++ commitsOf b)%list.
Proof.
  induction a as [|e a IH]; [reflexivity|].
  destruct e; simpl; try exact IH.
  destruct (isCommit command); simpl; now rewrite IH.
Qed.

Lemma commitsOf_In (t : list event) (command : string) :
  In command (commitsOf t) <-> In (Exec command) t /\ isCommit command = true.
Proof.
  induction t as [|e t IH]; simpl.
  - tauto.
  - destruct e; simpl; rewrite ?IH;
      try (split; [intros [H1 H2]; split; [right|]; assumption
                  |intros [[H1|H1] H2]; [discriminate|split; assumption]]).
    destruct (isCommit command0) eqn:E; simpl; rewrite IH; split.
    + intros [H|[H1 H2]]; [subst; split; [left; reflexivity|assumption]|split; [right|]; assumption].
    + intros [[H|H] H2]; [left; congruence|right; split; assumption].
    + intros [H1 H2]; split; [right|]; assumption.
    + intros [[H|H] H2]; [congruence|split; assumption].
Qed.

Lemma quiet_commitsOf (t : list event) : Forall quiet t -> commitsOf t = [].
Proof.
  induction 1 as [|e t He _ IH]; [reflexivity|].
  destruct e; simpl in *; try exact IH.
  now rewrite He.
Qed.

Lemma reporting_quiet (t : list event) : Forall reporting t -> Forall quiet t.
Proof.
  apply Forall_impl. intros [] H; simpl in *; try tauto.
  subst; reflexivity.
Qed.

Lemma typing_quiet (t : list event) : Forall typing t -> Forall quiet t.
Proof.
  apply Forall_impl. intros [] H; simpl in *; tauto.
Qed.

(** An event that is not in the first part of a trace has the whole first
    part before it. *)
Lemma split_after (a b pre post : list event) (e : event) :
  (a ++ b)%list = (pre ++ e :: post)%list -> ~ In e a ->
  exists mid, pre = (a ++ mid)%list /\ b = (mid ++ e :: post)%list.
Proof.
  revert pre. induction a as [|x a IH]; intros pre H Hn.
  - exists pre. split; [reflexivity|exact H].
  - destruct pre as [|y pre]; simpl in H; injection H as Hx Ht.
    + exfalso. apply Hn. left. exact Hx.
    + destruct (IH pre Ht) as [mid [H1 H2]].
      * intros Hin. apply Hn. right. exact Hin.
      * exists mid. subst. split; reflexivity.
Qed.

(** ** The parts of the TypeScript script *)

Section CliParts.

Variable version : string.

Lemma exec_run (command : string) (w : world) :
  Cli.exec command w =
  ([Exec command],
   match child_error (shell w command) with
   | Some error => Thrown error
   | None => Done {| Cli.stdout := child_stdout (shell w command);
                     Cli.stderr := child_stderr (shell w command) |}
   end).
Proof.
  unfold Cli.exec, bind, spawn.
  destruct (child_error (shell w command)); reflexivity.
Qed.

(** The version check: the query, then at most one line on the console. *)
Lemma checkVersion_run (w : world) :
  Cli.checkVersion version w =
  (Exec Cli.cmdVersion ::
     match child_error (shell w Cli.cmdVersion) with
     | Some err => [ConsoleError [Str "Error checking for updates:"; Obj err]]
     | None =>
         let latestVersion := JS.trim (child_stdout (shell w Cli.cmdVersion)) in
         if Cli.outdated latestVersion version
         then [ConsoleLog (Cli.updateNotice latestVersion)]
         else []
     end,
   Done tt).
Proof.
  unfold Cli.checkVersion, try_catch, bind.
  rewrite exec_run.
  destruct (child_error (shell w Cli.cmdVersion)); [reflexivity|].
  cbv zeta. cbn [Cli.stdout]. destruct (Cli.outdated _ _); reflexivity.
Qed.

Lemma checkVersion_reporting (w : world) :
  exists tail,
    Cli.checkVersion version w = (Exec Cli.cmdVersion :: tail, Done tt) /\
    Forall reporting (Exec Cli.cmdVersion :: tail).
Proof.
  rewrite checkVersion_run. eexists; split; [reflexivity|].
  constructor; [reflexivity|].
  destruct (child_error _); [repeat constructor|].
  cbv zeta. destruct (Cli.outdated _ _); repeat constructor.
Qed.

(** A failed commit: the command, then the report on the error console. *)
Lemma makeCommit_failure (commitType commitMessage : string) (w : world) (err : ExecException) :
  child_error (shell w (Cli.commitCommand (formatted commitType) commitMessage)) = Some err ->
  Cli.makeCommit version commitType commitMessage w =
  (Exec (Cli.commitCommand (formatted commitType) commitMessage) ::
     match code err with
     | CodeNum 128 => [ConsoleError [Str Cli.msgUnmerged]; ConsoleError [Str Cli.msgResolve]]
     | _ => [ConsoleError [Str Cli.msgUnknown; Obj err]]
     end,
   Done tt).
Proof.
  intros H. unfold Cli.makeCommit, try_catch, bind. fold (formatted commitType).
  rewrite exec_run, H.
  destruct (code err) as [n| |]; try reflexivity.
  destruct n as [|p|p]; try reflexivity.
  do 8 (destruct p as [p|p|]; try reflexivity).
Qed.

(** A commit that went through: the command, its output, the version check. *)
Lemma makeCommit_success (commitType commitMessage : string) (w : world) :
  let command := Cli.commitCommand (formatted commitType) commitMessage in
  child_error (shell w command) = None ->
  Cli.makeCommit version commitType commitMessage w =
  (Exec command ::
     ((if (0 <? String.length (child_stdout (shell w command)))%nat
       then [ConsoleLog [Str ("* " ++ child_stdout (shell w command))]] else []) ++
      (if (0 <? String.length (child_stderr (shell w command)))%nat
       then [ConsoleLog [Str ("# " ++ child_stderr (shell w command))]] else []) ++
      trace (Cli.checkVersion version w))%list,
   Done tt).
Proof.
  intros command H. unfold Cli.makeCommit, try_catch, bind. fold (formatted commitType).
  fold command. rewrite exec_run, H. cbn [Cli.stdout Cli.stderr].
  destruct (checkVersion_reporting w) as [tail [E _]]. rewrite E.
  destruct (0 <? String.length (child_stdout (shell w command)))%nat;
    destruct (0 <? String.length (child_stderr (shell w command)))%nat;
    reflexivity.
Qed.

Lemma makeCommit_run (commitType commitMessage : string) (w : world) :
  exists tail,
    Cli.makeCommit version commitType commitMessage w =
      (Exec (Cli.commitCommand (formatted commitType) commitMessage) :: tail, Done tt) /\
    Forall reporting tail /\
    (child_error (shell w (Cli.commitCommand (formatted commitType) commitMessage)) <> None ->
     exists args, In (ConsoleError args) tail).
Proof.
  destruct (child_error (shell w (Cli.commitCommand (formatted commitType) commitMessage)))
    as [err|] eqn:E.
  - rewrite (makeCommit_failure _ _ _ _ E). eexists; split; [reflexivity|split].
    + destruct (code err) as [n| |]; repeat constructor.
      destruct n as [|p|p]; repeat constructor.
      do 8 (destruct p as [p|p|]; repeat constructor).
    + intros _. destruct (code err) as [n| |];
        try (eexists; left; reflexivity).
      destruct n as [|p|p]; try (eexists; left; reflexivity).
      do 8 (destruct p as [p|p|]; try (eexists; left; reflexivity)).
  - rewrite (makeCommit_success _ _ _ E). eexists; split; [reflexivity|split].
    + destruct (checkVersion_reporting w) as [tail [Ev Hv]]. rewrite Ev.
      unfold trace, fst.
      apply Forall_app; split; [|apply Forall_app; split; [|exact Hv]];
        match goal with |- Forall _ (if ?c then _ else _) => destruct c end;
        repeat constructor.
    + intros C. now contradiction C.
Qed.

End CliParts.

(** ** Running a sequence *)

Lemma bind_done {A B : Type} (m : M A) (k : A -> M B) (w : world) (t : list event) (a : A) :
  m w = (t, Done a) ->
  bind m k w = ((t ++ trace (k a w))%list, result (k a w)).
Proof.
  intros H. unfold bind. rewrite H. destruct (k a w). reflexivity.
Qed.

Lemma bind_thrown {A B : Type} (m : M A) (k : A -> M B) (w : world) (t : list event)
      (e : ExecException) :
  m w = (t, Thrown e) -> bind m k w = (t, Thrown e).
Proof. intros H. unfold bind. rewrite H. reflexivity. Qed.

Lemma bind_pending {A B : Type} (m : M A) (k : A -> M B) (w : world) (t : list event) :
  m w = (t, Pending) -> bind m k w = (t, Pending).
Proof. intros H. unfold bind. rewrite H. reflexivity. Qed.

Lemma run_eta {A : Type} (r : list event * outcome A) : r = (trace r, result r).
Proof. destruct r; reflexivity. Qed.

(** ** The prompts *)

Lemma validate_nonempty (value : string) (w : world) :
  value <> "" -> Cli.validate value w = ([], Done (Inquirer.VBool true)).
Proof.
  intros H. unfold Cli.validate.
  destruct (String.eqb_spec value ""); [contradiction|reflexivity].
Qed.

Lemma validate_empty (w : world) :
  Cli.validate "" w = ([ConsoleLog [Str Cli.msgInvalid]], Done (Inquirer.VNum 0)).
Proof. reflexivity. Qed.

(** The input prompt takes the first line that is not empty, and waits
    when there is none. *)
Lemma inputLoop_run (lines : list string) (w : world) :
  exists t,
    Forall typing t /\
    (Inquirer.inputLoop Cli.validate lines w = (t, Pending) \/
     exists line,
       Inquirer.inputLoop Cli.validate lines w = (t, Done line) /\
       line <> "" /\ In line lines).
Proof.
  induction lines as [|l lines IH].
  - exists []. split; [constructor|left; reflexivity].
  - cbn [Inquirer.inputLoop].
    rewrite (bind_done _ _ w [Typed l] tt eq_refl).
    destruct (String.eqb_spec l "") as [E|E].
    + subst l. rewrite (bind_done _ _ w _ _ (validate_empty w)).
      cbn [Inquirer.accepted trace result fst snd].
      destruct IH as [t [Ht [IH|[line [IH [Hl Hin]]]]]]; rewrite IH.
      * eexists; split; [|left; reflexivity].
        repeat constructor. exact Ht.
      * eexists; split; [|right; exists line; split; [reflexivity|split; [exact Hl|right; exact Hin]]].
        repeat constructor. exact Ht.
    + rewrite (bind_done _ _ w _ _ (validate_nonempty _ w E)).
      cbn [Inquirer.accepted trace result fst snd].
      eexists; split; [|right; exists l; split; [reflexivity|split; [exact E|left; reflexivity]]].
      repeat constructor.
Qed.

Lemma picked_choice (w : world) :
  In (nth (pick w) Cli.choices (hd EmptyString Cli.choices)) Cli.choices.
Proof.
  destruct (nth_in_or_default (pick w) Cli.choices (hd EmptyString Cli.choices)) as [H|H].
  - exact H.
  - rewrite H. left. reflexivity.
Qed.

Lemma promptInput_run (message : string) (w : world) :
  Inquirer.promptInput message Cli.validate w =
  (AskInput message :: trace (Inquirer.inputLoop Cli.validate (typed w) w),
   result (Inquirer.inputLoop Cli.validate (typed w) w)).
Proof.
  unfold Inquirer.promptInput.
  rewrite (bind_done _ _ w [AskInput message] tt eq_refl). reflexivity.
Qed.

(** The questions: the message when the command line has none, then the
    type; the type is not asked while the message is awaited. *)
Lemma prompt_run (args : list string) (w : world) :
  exists pre,
    Forall typing pre /\
    (Cli.when args = true -> In (AskInput Cli.msgCommitMessage) pre) /\
    ((Cli.when args = true /\ Cli.prompt args w = (pre, Pending)) \/
     exists c,
       In c Cli.choices /\
       ((Cli.when args = false /\ pre = [] /\
         Cli.prompt args w =
           ([AskList Cli.msgCommitType c],
            Done {| Cli.commitMessage := None; Cli.commitType := c |})) \/
        (Cli.when args = true /\
         exists line,
           line <> "" /\ In line (typed w) /\
           Cli.prompt args w =
             ((pre ++ [AskList Cli.msgCommitType c])%list,
              Done {| Cli.commitMessage := Some line; Cli.commitType := c |})))).
Proof.
  unfold Cli.prompt. destruct (Cli.when args).
  - pose proof (promptInput_run Cli.msgCommitMessage w) as P.
    destruct (inputLoop_run (typed w) w) as [t [Ht [E|[line [E [Hl Hin]]]]]];
      rewrite E in P; cbn [trace result fst snd] in P;
      exists (AskInput Cli.msgCommitMessage :: t); (split; [|split]);
      try (constructor; [reflexivity|exact Ht]);
      try (intros _; left; reflexivity).
    + left. split; [reflexivity|].
      apply bind_pending. apply bind_pending. exact P.
    + right. eexists. split; [apply (picked_choice w)|].
      right. split; [reflexivity|].
      exists line. split; [exact Hl|split; [exact Hin|]].
      erewrite bind_done; [|erewrite bind_done; [reflexivity|exact P]].
      cbn [trace result fst snd ret]. rewrite app_nil_r.
      erewrite bind_done; [|reflexivity].
      reflexivity.
  - exists []. split; [constructor|split; [discriminate|]].
    right. eexists. split; [apply (picked_choice w)|].
    left. split; [reflexivity|split; [reflexivity|]].
    reflexivity.
Qed.

(** ** From the commit message to the commit *)

Section CliFlow.

Variable version : string.

Lemma recognized_nonempty (message : string) (type : Cli.CommitType) :
  Cli.recognized message = Some type -> message <> "".
Proof.
  intros H E. subst message. vm_compute in H. discriminate.
Qed.

(** A message with a recognized prefix: one line on the console. *)
Lemma mainMessage_recognized (args : list string) (w : world)
      (message : string) (type : Cli.CommitType) :
  hd_error args = Some message ->
  Cli.recognized message = Some type ->
  Cli.mainMessage version args w = ([ConsoleLog [Str Cli.msgLooksGood]], Done tt).
Proof.
  intros Ha Hr. unfold Cli.mainMessage. rewrite Ha.
  cbn [JS.truthy JS.template].
  destruct (String.eqb_spec message "") as [E|E].
  - exfalso. exact (recognized_nonempty _ _ Hr E).
  - cbn [negb]. rewrite Hr. reflexivity.
Qed.

(** No message, or one without a recognized prefix: the questions, then
    one commit with a message that is not empty. *)
Lemma mainMessage_prompted (args : list string) (w : world) :
  (forall message type, hd_error args = Some message -> Cli.recognized message <> Some type) ->
  exists pre,
    Forall typing pre /\
    (JS.truthy (hd_error args) = false -> In (AskInput Cli.msgCommitMessage) pre) /\
    (JS.truthy (hd_error args) = false /\ Cli.mainMessage version args w = (pre, Pending) \/
     exists c msg tail,
       In c Cli.choices /\ msg <> "" /\
       (pre = [] /\ hd_error args = Some msg \/
        In (AskInput Cli.msgCommitMessage) pre /\ In msg (typed w)) /\
       Cli.mainMessage version args w =
         ((pre ++ AskList Cli.msgCommitType c ::
             Exec (Cli.commitCommand (formatted c) msg) :: tail)%list, Done tt) /\
       Forall reporting tail /\
       (child_error (shell w (Cli.commitCommand (formatted c) msg)) <> None ->
        exists a, In (ConsoleError a) tail)).
Proof.
  intros Hn. unfold Cli.mainMessage.
  destruct (prompt_run args w) as [pre [Hpre [Hask P]]].
  exists pre. split; [exact Hpre|].
  destruct (JS.truthy (hd_error args)) eqn:T; cbn [negb].
  - (* a message on the command line *)
    destruct (hd_error args) as [m|] eqn:Ha; [|discriminate].
    assert (Hm : m <> "").
    { cbn [JS.truthy] in T. destruct (String.eqb_spec m ""); [discriminate|assumption]. }
    assert (W : Cli.when args = false).
    { unfold Cli.when. rewrite Ha, T. cbn [negb orb].
      destruct args; [discriminate|reflexivity]. }
    cbn [JS.template].
    destruct (Cli.recognized m) as [type|] eqn:R.
    { exfalso. exact (Hn m type eq_refl R). }
    split; [discriminate|].
    destruct P as [[W' _]|[c [Hc [[_ [E P]]|[W' _]]]]]; try congruence.
    subst pre. right.
    destruct (makeCommit_run version c m w) as [tail [Em [Ht He]]].
    exists c, m, tail. split; [exact Hc|split; [exact Hm|split; [left; split; reflexivity|]]].
    split; [|split; [exact Ht|exact He]].
    rewrite (bind_done _ _ w _ _ P). cbn [Cli.commitType]. rewrite Em. reflexivity.
  - (* no message: it is asked for *)
    assert (W : Cli.when args = true).
    { unfold Cli.when. rewrite T. reflexivity. }
    split; [intros _; exact (Hask W)|].
    destruct P as [[_ P]|[c [Hc [[W' _]|[_ [line [Hl [Hin P]]]]]]]]; try congruence.
    + left. split; [reflexivity|]. apply bind_pending. exact P.
    + right.
      destruct (makeCommit_run version c line w) as [tail [Em [Ht He]]].
      exists c, line, tail.
      split; [exact Hc|split; [exact Hl|split; [right; split; [exact (Hask W)|exact Hin]|]]].
      split; [|split; [exact Ht|exact He]].
      rewrite (bind_done _ _ w _ _ P). cbn [Cli.commitType Cli.commitMessage JS.template].
      rewrite Em. cbn [trace result fst snd]. rewrite <- app_assoc. reflexivity.
Qed.

(** The listing of the staged files spawns one child and never waits. *)
Lemma getStagedFiles_run (w : world) :
  Cli.getStagedFiles w =
  ([Exec Cli.cmdStaged],
   match child_error (shell w Cli.cmdStaged) with
   | None => Done (JS.split JS.newline (JS.trim (child_stdout (shell w Cli.cmdStaged))))
   | Some err =>
       match code err with
       | CodeNum 1 => Done []
       | _ => Thrown err
       end
   end).
Proof.
  unfold Cli.getStagedFiles, try_catch, bind. rewrite exec_run.
  destruct (child_error (shell w Cli.cmdStaged)) as [err|]; [|reflexivity].
  destruct (code err) as [n| |]; try reflexivity.
  destruct n as [|p|p]; try reflexivity.
  destruct p; reflexivity.
Qed.

Lemma mainManyFiles_run (stagedFiles args : list string) (w : world) :
  Cli.mainManyFiles version stagedFiles args w =
  if (Cli.STAGED_FILES_WARNING_THRESHOLD <? length stagedFiles)%nat
     && negb (confirm w (Cli.msgManyFiles (length stagedFiles)))
  then ((gate2 stagedFiles w ++ [ConsoleLog [Str Cli.msgCanceled]])%list, Done tt)
  else ((gate2 stagedFiles w ++ trace (Cli.mainMessage version args w))%list,
        result (Cli.mainMessage version args w)).
Proof.
  unfold Cli.mainManyFiles, gate2.
  destruct (Cli.STAGED_FILES_WARNING_THRESHOLD <? length stagedFiles)%nat; cbn [andb].
  - unfold Cli.confirmCommitHasManyFiles.
    rewrite (bind_done _ _ w _ _ eq_refl).
    destruct (confirm w (Cli.msgManyFiles (length stagedFiles))); reflexivity.
  - apply run_eta.
Qed.

(** The script, branch by branch. *)
Lemma main_run (opts : Cli.options) (args : list string) (w : world) :
  Cli.main version opts args w =
  if Cli.learn opts then ([ConsoleLog [Str Cli.msgLearn]], Done tt)
  else
    match result (Cli.getStagedFiles w) with
    | Thrown e => ([Exec Cli.cmdStaged], Thrown e)
    | Pending => ([Exec Cli.cmdStaged], Pending)
    | Done stagedFiles =>
        if (length stagedFiles =? 0)%nat
        then ([Exec Cli.cmdStaged; ConsoleLog [Str Cli.msgNoFiles]], Done tt)
        else if Cli.hasNodeModules stagedFiles && negb (confirm w Cli.msgNodeModules)
        then (Exec Cli.cmdStaged :: gate1 stagedFiles w ++ [ConsoleLog [Str Cli.msgCanceled]],
              Done tt)%list
        else if (Cli.STAGED_FILES_WARNING_THRESHOLD <? length stagedFiles)%nat
                && negb (confirm w (Cli.msgManyFiles (length stagedFiles)))
        then (Exec Cli.cmdStaged :: gate1 stagedFiles w ++ gate2 stagedFiles w
                ++ [ConsoleLog [Str Cli.msgCanceled]], Done tt)%list
        else (Exec Cli.cmdStaged :: gate1 stagedFiles w ++ gate2 stagedFiles w
                ++ trace (Cli.mainMessage version args w),
              result (Cli.mainMessage version args w))%list
    end.
Proof.
  unfold Cli.main. destruct (Cli.learn opts); [reflexivity|].
  pose proof (getStagedFiles_run w) as G.
  destruct (Cli.getStagedFiles w) as [t0 o0] eqn:E0. cbn [result snd].
  injection G as Ht Ho. subst t0.
  destruct o0 as [stagedFiles|e|].
  - rewrite (bind_done _ _ w _ _ E0).
    destruct (length stagedFiles =? 0)%nat; [reflexivity|].
    unfold gate1. destruct (Cli.hasNodeModules stagedFiles); cbn [andb].
    + unfold Cli.confirmCommitWithNodeModules.
      rewrite (bind_done _ _ w _ _ eq_refl).
      destruct (confirm w Cli.msgNodeModules); cbn [negb].
      * rewrite mainManyFiles_run.
        destruct (_ && _); reflexivity.
      * reflexivity.
    + rewrite mainManyFiles_run.
      destruct (_ && _); reflexivity.
  - apply (bind_thrown _ _ w _ _ E0).
  - apply (bind_pending _ _ w _ E0).
Qed.

End CliFlow.

(** ** The shape of a run *)

Lemma gateEvent_quiet (t : list event) : Forall gateEvent t -> Forall quiet t.
Proof.
  apply Forall_impl. intros [] H; simpl in *; try tauto.
  subst; reflexivity.
Qed.

Lemma isCommit_commitCommand (label message : string) :
  isCommit (Cli.commitCommand label message) = true.
Proof. reflexivity. Qed.

Section CliShape.

Variable version : string.

Lemma gate1_gateEvent (stagedFiles : list string) (w : world) :
  Forall gateEvent (gate1 stagedFiles w).
Proof. unfold gate1. destruct (Cli.hasNodeModules _); repeat constructor. Qed.

Lemma gate2_gateEvent (stagedFiles : list string) (w : world) :
  Forall gateEvent (gate2 stagedFiles w).
Proof. unfold gate2. destruct (_ <? _)%nat; repeat constructor. Qed.

Lemma gates_gateEvent (stagedFiles : list string) (w : world) :
  Forall gateEvent (Exec Cli.cmdStaged :: gate1 stagedFiles w ++ gate2 stagedFiles w)%list.
Proof.
  constructor; [reflexivity|].
  apply Forall_app; split; [apply gate1_gateEvent|apply gate2_gateEvent].
Qed.

(** Every run is a sequence of checks followed by one of three endings:
    a single line on the console, a rejection of the listing, or the part
    of the script that deals with the commit message. *)
Lemma main_shape (opts : Cli.options) (args : list string) (w : world) :
  exists gates rest,
    trace (Cli.main version opts args w) = (gates ++ rest)%list /\
    Forall gateEvent gates /\
    ((exists line, rest = [ConsoleLog [Str line]] /\
                   (line = Cli.msgLearn \/ line = Cli.msgNoFiles \/ line = Cli.msgCanceled) /\
                   result (Cli.main version opts args w) = Done tt) \/
     (rest = [] /\ exists e, result (Cli.main version opts args w) = Thrown e) \/
     (rest = trace (Cli.mainMessage version args w) /\
      result (Cli.main version opts args w) = result (Cli.mainMessage version args w))).
Proof.
  rewrite main_run. destruct (Cli.learn opts).
  { exists [], [ConsoleLog [Str Cli.msgLearn]]. split; [reflexivity|split; [constructor|]].
    left. eexists. split; [reflexivity|split; [left; reflexivity|reflexivity]]. }
  rewrite getStagedFiles_run. cbn [result snd].
  destruct (child_error (shell w Cli.cmdStaged)) as [err|].
  - assert (E : (match code err with CodeNum 1 => Done (@nil string) | _ => Thrown err end
                 = Done []) \/
                (match code err with CodeNum 1 => Done (@nil string) | _ => Thrown err end
                 = Thrown err)).
    { destruct (code err) as [n| |]; try (right; reflexivity).
      destruct n as [|p|p]; try (right; reflexivity).
      destruct p; try (right; reflexivity). left. reflexivity. }
    destruct E as [E|E]; rewrite E.
    + exists [Exec Cli.cmdStaged], [ConsoleLog [Str Cli.msgNoFiles]].
      split; [reflexivity|split; [repeat constructor|]].
      left. eexists. split; [reflexivity|split; [right; left; reflexivity|reflexivity]].
    + exists [Exec Cli.cmdStaged], []. split; [reflexivity|split; [repeat constructor|]].
      right. left. split; [reflexivity|]. exists err. reflexivity.
  - set (files := JS.split JS.newline (JS.trim (child_stdout (shell w Cli.cmdStaged)))).
    destruct (length files =? 0)%nat.
    { exists [Exec Cli.cmdStaged], [ConsoleLog [Str Cli.msgNoFiles]].
      split; [reflexivity|split; [repeat constructor|]].
      left. eexists. split; [reflexivity|split; [right; left; reflexivity|reflexivity]]. }
    destruct (Cli.hasNodeModules files && negb (confirm w Cli.msgNodeModules)).
    { exists (Exec Cli.cmdStaged :: gate1 files w), [ConsoleLog [Str Cli.msgCanceled]].
      split; [reflexivity|split].
      - constructor; [reflexivity|apply gate1_gateEvent].
      - left. eexists. split; [reflexivity|split; [right; right; reflexivity|reflexivity]]. }
    destruct ((Cli.STAGED_FILES_WARNING_THRESHOLD <? length files)%nat
              && negb (confirm w (Cli.msgManyFiles (length files)))).
    { exists (Exec Cli.cmdStaged :: gate1 files w ++ gate2 files w)%list,
             [ConsoleLog [Str Cli.msgCanceled]].
      split; [cbn [trace fst app]; rewrite <- app_assoc; reflexivity|split].
      - apply gates_gateEvent.
      - left. eexists. split; [reflexivity|split; [right; right; reflexivity|reflexivity]]. }
    exists (Exec Cli.cmdStaged :: gate1 files w ++ gate2 files w)%list,
           (trace (Cli.mainMessage version args w)).
    split; [cbn [trace fst app]; rewrite <- app_assoc; reflexivity|split].
    + apply gates_gateEvent.
    + right. right. split; reflexivity.
Qed.

(** A run that passes the checks goes on to the commit message. *)
Lemma main_passes (opts : Cli.options) (args : list string) (w : world) :
  passesChecks opts w ->
  exists gates,
    Forall gateEvent gates /\
    Cli.main version opts args w =
      ((gates ++ trace (Cli.mainMessage version args w))%list,
       result (Cli.mainMessage version args w)).
Proof.
  intros [L [files [G [Hne [H1 H2]]]]].
  rewrite main_run, L, G.
  assert (Z : (length files =? 0)%nat = false) by (destruct files; [contradiction|reflexivity]).
  rewrite Z.
  exists (Exec Cli.cmdStaged :: gate1 files w ++ gate2 files w)%list.
  split; [apply gates_gateEvent|].
  assert (E1 : Cli.hasNodeModules files && negb (confirm w Cli.msgNodeModules) = false).
  { destruct (Cli.hasNodeModules files); [|reflexivity]. now rewrite (H1 eq_refl). }
  assert (E2 : (Cli.STAGED_FILES_WARNING_THRESHOLD <? length files)%nat
               && negb (confirm w (Cli.msgManyFiles (length files))) = false).
  { destruct (Cli.STAGED_FILES_WARNING_THRESHOLD <? length files)%nat eqn:T; [|reflexivity].
    apply Nat.ltb_lt in T. now rewrite (H2 T). }
  rewrite E1, E2. cbn [app]. rewrite <- app_assoc. reflexivity.
Qed.

End CliShape.

Section CliCommits.

Variable version : string.

Lemma mainMessage_cases (args : list string) :
  (exists message type, hd_error args = Some message /\ Cli.recognized message = Some type) \/
  (forall message type, hd_error args = Some message -> Cli.recognized message <> Some type).
Proof.
  destruct (hd_error args) as [m|]; [|right; discriminate].
  destruct (Cli.recognized m) as [type|] eqn:R.
  - left. exists m, type. split; [reflexivity|exact R].
  - right. intros message type E. injection E as <-. rewrite R. discriminate.
Qed.

Lemma not_gateEvent_not_In (e : event) (t : list event) :
  Forall gateEvent t -> ~ gateEvent e -> ~ In e t.
Proof.
  intros F N H. rewrite Forall_forall in F. exact (N (F e H)).
Qed.

Lemma not_reporting_not_In (e : event) (t : list event) :
  Forall reporting t -> ~ reporting e -> ~ In e t.
Proof.
  intros F N H. rewrite Forall_forall in F. exact (N (F e H)).
Qed.

Lemma not_typing_not_In (e : event) (t : list event) :
  Forall typing t -> ~ typing e -> ~ In e t.
Proof.
  intros F N H. rewrite Forall_forall in F. exact (N (F e H)).
Qed.

(** A run spawns at most one commit command; the message in it is not
    empty, it is the one typed at the prompt when the prompt was shown,
    and the run then ends normally, with a report when the command fails. *)
Lemma main_commits (opts : Cli.options) (args : list string) (w : world) :
  commitsOf (trace (Cli.main version opts args w)) = [] \/
  exists c msg,
    In c Cli.choices /\ msg <> "" /\
    (hd_error args = Some msg \/ In msg (typed w)) /\
    (In (AskInput Cli.msgCommitMessage) (trace (Cli.main version opts args w)) ->
     In msg (typed w)) /\
    commitsOf (trace (Cli.main version opts args w)) = [Cli.commitCommand (formatted c) msg] /\
    result (Cli.main version opts args w) = Done tt /\
    (child_error (shell w (Cli.commitCommand (formatted c) msg)) <> None ->
     exists a, In (ConsoleError a) (trace (Cli.main version opts args w))).
Proof.
  destruct (main_shape version opts args w) as [gates [rest [E [G H]]]].
  pose proof (quiet_commitsOf _ (gateEvent_quiet _ G)) as Cg.
  rewrite E, commitsOf_app, Cg. cbn [app].
  destruct H as [[line [-> _]]|[[-> _]|[-> R]]]; [left; reflexivity|left; reflexivity|].
  destruct (mainMessage_cases args) as [[message [type [Ha Hr]]]|Hn].
  { rewrite (mainMessage_recognized version args w message type Ha Hr). left. reflexivity. }
  destruct (mainMessage_prompted version args w Hn) as [pre [Hpre [_ [[_ P]|P]]]].
  { rewrite P. cbn [trace fst]. left. apply quiet_commitsOf, typing_quiet, Hpre. }
  destruct P as [c [msg [tail [Hc [Hm [Hsrc [P [Ht He]]]]]]]].
  right. exists c, msg. rewrite R, P. cbn [trace result fst snd].
  split; [exact Hc|split; [exact Hm|split; [|split; [|split; [|split]]]]].
  - destruct Hsrc as [[_ Hs]|[_ Hs]]; [left|right]; exact Hs.
  - intros Hin. destruct Hsrc as [[Hp Hs]|[_ Hs]]; [|exact Hs]. subst pre.
    exfalso. apply in_app_or in Hin. destruct Hin as [Hin|Hin].
    + revert Hin. apply (not_gateEvent_not_In _ _ G). intros K; exact K.
    + cbn [app] in Hin. destruct Hin as [Hin|[Hin|Hin]]; try discriminate.
      revert Hin. apply (not_reporting_not_In _ _ Ht). intros K; exact K.
  - rewrite commitsOf_app, (quiet_commitsOf _ (typing_quiet _ Hpre)).
    cbn [app commitsOf]. rewrite isCommit_commitCommand.
    now rewrite (quiet_commitsOf _ (reporting_quiet _ Ht)).
  - reflexivity.
  - intros Hf. destruct (He Hf) as [a Ha]. exists a.
    apply in_or_app. right. apply in_or_app. right. right. right. exact Ha.
Qed.

End CliCommits.

(** ** The original script *)

Section LegacyRuns.

Variable version : string.

Lemma legacy_validate : Legacy.validate = Cli.validate.
Proof. reflexivity. Qed.

Lemma legacy_makeCommit_run (command : string) (w : world) :
  Legacy.makeCommit version command w =
  (Exec command :: ConsoleLog [Str (child_stdout (shell w command))] ::
   Exec Legacy.cmdVersion ::
   (if Legacy.outdated version (child_stdout (shell w Legacy.cmdVersion))
    then [ConsoleLog (Legacy.updateNotice (child_stdout (shell w Legacy.cmdVersion)))]
    else []),
   Done tt).
Proof.
  unfold Legacy.makeCommit, Legacy.checkVersion.
  rewrite (bind_done _ _ w [Exec command] _ eq_refl).
  rewrite (bind_done _ _ w [ConsoleLog [Str (child_stdout (shell w command))]] tt eq_refl).
  rewrite (bind_done _ _ w [Exec Legacy.cmdVersion] _ eq_refl).
  destruct (Legacy.outdated version (child_stdout (shell w Legacy.cmdVersion))); reflexivity.
Qed.

Lemma legacy_makeCommit_shape (command : string) (w : world) :
  exists tail,
    Legacy.makeCommit version command w = (Exec command :: tail, Done tt) /\
    Forall reporting tail.
Proof.
  rewrite legacy_makeCommit_run. eexists. split; [reflexivity|].
  constructor; [exact I|]. constructor; [reflexivity|].
  destruct (Legacy.outdated _ _); repeat constructor.
Qed.

Lemma legacy_picked_choice (w : world) :
  In (nth (pick w) Legacy.choices (hd EmptyString Legacy.choices)) Legacy.choices.
Proof.
  destruct (nth_in_or_default (pick w) Legacy.choices (hd EmptyString Legacy.choices)) as [H|H].
  - exact H.
  - rewrite H. left. reflexivity.
Qed.

(** The branch without a flag, when the command line has no message: the
    type, the message prompt, then one commit with the line it took. *)
Lemma interactive_prompted (p : Legacy.program) (w : world) :
  JS.truthy (hd_error (Legacy.args p)) = false ->
  exists c t,
    In c Legacy.choices /\ Forall typing t /\
    (Legacy.interactive version p w =
       (ConsoleLog [Str Legacy.msgPick] :: AskList Legacy.msgCommitType c ::
        AskInput Legacy.msgCommitMessage :: t, Pending) \/
     exists line tail,
       line <> "" /\ In line (typed w) /\ Forall reporting tail /\
       Legacy.interactive version p w =
         ((ConsoleLog [Str Legacy.msgPick] :: AskList Legacy.msgCommitType c ::
           AskInput Legacy.msgCommitMessage :: t) ++
          Exec (Legacy.commitCommand (cleaned c) line) :: tail, Done tt)%list).
Proof.
  intros T. unfold Legacy.interactive. rewrite T. cbn [negb orb].
  exists (nth (pick w) Legacy.choices (hd EmptyString Legacy.choices)).
  set (c := nth (pick w) Legacy.choices (hd EmptyString Legacy.choices)).
  rewrite (bind_done _ _ w [ConsoleLog [Str Legacy.msgPick]] tt eq_refl).
  rewrite (bind_done (Inquirer.promptList Legacy.msgCommitType Legacy.choices) _ w
             [AskList Legacy.msgCommitType c] c eq_refl).
  fold (cleaned c).
  pose proof (promptInput_run Legacy.msgCommitMessage w) as P.
  rewrite <- legacy_validate in P.
  destruct (inputLoop_run (typed w) w) as [t [Ht [E|[line [E [Hl Hin]]]]]];
    rewrite <- legacy_validate in E; rewrite E in P; cbn [trace result fst snd] in P;
    exists t; (split; [apply legacy_picked_choice|split; [exact Ht|]]).
  - left.
    rewrite (bind_pending _ _ w _ (bind_pending _ _ w _ P)). reflexivity.
  - right. destruct (legacy_makeCommit_shape (Legacy.commitCommand (cleaned c) line) w)
      as [tail [Em Ht']].
    exists line, tail. split; [exact Hl|split; [exact Hin|split; [exact Ht'|]]].
    erewrite bind_done; [|erewrite bind_done; [|exact P]; rewrite Em; reflexivity].
    cbn [trace result fst snd ret app]. rewrite app_nil_r. reflexivity.
Qed.

(** The branch without a flag, when the command line has a message: the
    type, then one commit; the message prompt is not shown. *)
Lemma interactive_message (p : Legacy.program) (w : world) :
  JS.truthy (hd_error (Legacy.args p)) = true ->
  exists c tail,
    In c Legacy.choices /\ Forall reporting tail /\
    Legacy.interactive version p w =
      (ConsoleLog [Str Legacy.msgPick] :: AskList Legacy.msgCommitType c ::
       Exec (Legacy.commitCommand (cleaned c) (JS.join (Legacy.args p))) :: tail, Done tt).
Proof.
  intros T. unfold Legacy.interactive. rewrite T. cbn [negb orb].
  assert (L : (length (Legacy.args p) =? 0)%nat = false).
  { destruct (Legacy.args p); [discriminate|reflexivity]. }
  rewrite L.
  exists (nth (pick w) Legacy.choices (hd EmptyString Legacy.choices)).
  set (c := nth (pick w) Legacy.choices (hd EmptyString Legacy.choices)).
  rewrite (bind_done _ _ w [ConsoleLog [Str Legacy.msgPick]] tt eq_refl).
  rewrite (bind_done (Inquirer.promptList Legacy.msgCommitType Legacy.choices) _ w
             [AskList Legacy.msgCommitType c] c eq_refl).
  fold (cleaned c).
  destruct (legacy_makeCommit_shape
              (Legacy.commitCommand (cleaned c) (JS.join (Legacy.args p))) w)
    as [tail [Em Ht']].
  exists tail. split; [apply legacy_picked_choice|split; [exact Ht'|]].
  rewrite (bind_done _ _ w [] tt eq_refl). rewrite Em. reflexivity.
Qed.

(** A run of the original script that shows the message prompt commits
    the line the prompt took, and nothing else. *)
Lemma legacy_prompted_commit (p : Legacy.program) (w : world) (command : string) :
  In (AskInput Legacy.msgCommitMessage) (trace (Legacy.script version p w)) ->
  In (Exec command) (trace (Legacy.script version p w)) ->
  isCommit command = true ->
  exists c msg,
    In c Legacy.choices /\ msg <> "" /\ In msg (typed w) /\
    command = Legacy.commitCommand (cleaned c) msg.
Proof.
  assert (F : forall cmd, ~ In (AskInput Legacy.msgCommitMessage)
                            (trace (Legacy.makeCommit version cmd w))).
  { intros cmd. destruct (legacy_makeCommit_shape cmd w) as [tail [E Ht]]. rewrite E.
    cbn [trace fst]. intros [H|H]; [discriminate|].
    revert H. apply (not_reporting_not_In _ _ Ht). intros K; exact K. }
  unfold Legacy.script.
  repeat match goal with
         | |- context [if ?b then Legacy.makeCommit _ _ else _] =>
             destruct b; [intros H; exfalso; exact (F _ H)|]
         end.
  destruct (JS.truthy (hd_error (Legacy.args p))) eqn:T.
  - destruct (interactive_message p w T) as [c [tail [_ [Ht E]]]]. rewrite E.
    cbn [trace fst]. intros [H|[H|[H|H]]]; try discriminate.
    exfalso. revert H. apply (not_reporting_not_In _ _ Ht). intros K; exact K.
  - destruct (interactive_prompted p w T) as [c [t [Hc [Ht [E|E]]]]].
    + rewrite E. cbn [trace fst]. intros _ [H|[H|[H|H]]]; try discriminate.
      exfalso. revert H. apply (not_typing_not_In _ _ Ht). intros K; exact K.
    + destruct E as [line [tail [Hl [Hin [Ht' E]]]]]. rewrite E. cbn [trace fst app].
      intros _ [H|[H|[H|H]]] C; try discriminate.
      apply in_app_or in H. destruct H as [H|[H|H]].
      * exfalso. revert H. apply (not_typing_not_In _ _ Ht). intros K; exact K.
      * injection H as <-. exists c, line. repeat split; assumption.
      * exfalso. rewrite Forall_forall in Ht'. specialize (Ht' _ H).
        cbn in Ht'. subst command. discriminate.
Qed.

End LegacyRuns.

(** ** One command, one message *)

Lemma append_cancel (a x y : string) : a ++ x = a ++ y -> x = y.
Proof.
  induction a as [|ch a IH]; cbn [String.append]; intros H; [exact H|].
  injection H as H. exact (IH H).
Qed.

Lemma append_quote_empty (x : string) : x ++ JS.q = JS.q -> x = "".
Proof.
  destruct x as [|a x]; [reflexivity|].
  cbn [String.append]. intros H. injection H as _ H.
  destruct x; discriminate.
Qed.

(** Among the labels of the script, a command with an empty message is
    the command of no other message. *)
Lemma commitCommand_empty (c c' msg : string) :
  In c Cli.choices -> In c' Cli.choices ->
  Cli.commitCommand (formatted c) msg = Cli.commitCommand (formatted c') "" ->
  msg = "".
Proof.
  intros Hc Hc' H. unfold Cli.commitCommand in H.
  apply append_cancel, append_cancel in H.
  cbv in Hc. cbv in Hc'.
  repeat (destruct Hc as [Hc|Hc]; [subst c|]); try contradiction;
    repeat (destruct Hc' as [Hc'|Hc']; [subst c'|]); try contradiction;
    try (vm_compute in H; discriminate);
    apply append_cancel, append_cancel in H; apply append_quote_empty; exact H.
Qed.

Lemma legacy_commitCommand_empty (c c' msg : string) :
  In c Legacy.choices -> In c' Legacy.choices ->
  Legacy.commitCommand (cleaned c) msg = Legacy.commitCommand (cleaned c') "" ->
  msg = "".
Proof.
  intros Hc Hc' H. unfold Legacy.commitCommand in H.
  apply append_cancel, append_cancel in H.
  cbv in Hc. cbv in Hc'.
  repeat (destruct Hc as [Hc|Hc]; [subst c|]); try contradiction;
    repeat (destruct Hc' as [Hc'|Hc']; [subst c'|]); try contradiction;
    try (vm_compute in H; discriminate);
    apply append_cancel, append_cancel in H; apply append_quote_empty; exact H.
Qed.

(** ** The confirmations *)

Lemma prefix_spec (p s : string) :
  String.prefix p s = true <-> exists rest, s = p ++ rest.
Proof.
  revert s. induction p as [|a p IH]; intros s.
  - split; [intros _; exists s; reflexivity|intros _; destruct s; reflexivity].
  - destruct s as [|b s]; cbn [String.prefix String.append].
    + split; [discriminate|intros [rest H]; discriminate].
    + destruct (Ascii.ascii_dec a b) as [->|N].
      * rewrite IH. split; intros [rest H]; exists rest; [now subst|now injection H].
      * split; [discriminate|intros [rest H]; injection H as H1 H2; now contradiction N].
Qed.

(** [includes] is the test for a substring. *)
Lemma includes_spec (s sub : string) :
  JS.includes s sub = true <-> exists before after, s = before ++ sub ++ after.
Proof.
  induction s as [|a s IH]; cbn [JS.includes].
  - rewrite orb_false_r, prefix_spec. split.
    + intros [rest H]. exists "", rest. exact H.
    + intros [before [after H]]. destruct before; [exists after; exact H|discriminate].
  - rewrite orb_true_iff, prefix_spec, IH. split.
    + intros [[rest H]|[before [after H]]].
      * exists "", rest. exact H.
      * exists (String a before), after. cbn [String.append]. now rewrite H.
    + intros [before [after H]]. destruct before as [|b before].
      * left. exists after. exact H.
      * right. cbn [String.append] in H. injection H as _ H. exists before, after. exact H.
Qed.

Lemma hasNodeModules_spec (stagedFiles : list string) :
  Cli.hasNodeModules stagedFiles = true <->
  exists file before after,
    In file stagedFiles /\ file = before ++ "node_modules" ++ after.
Proof.
  unfold Cli.hasNodeModules. rewrite existsb_exists. split.
  - intros [file [Hin H]]. apply includes_spec in H. destruct H as [before [after H]].
    exists file, before, after. split; assumption.
  - intros [file [before [after [Hin H]]]]. exists file. split; [exact Hin|].
    apply includes_spec. exists before, after. exact H.
Qed.

Lemma msgManyFiles_not_msgNodeModules (n : nat) : Cli.msgManyFiles n <> Cli.msgNodeModules.
Proof.
  intros H. apply (f_equal (String.get 5)) in H. vm_compute in H. discriminate.
Qed.

Section CliConfirmations.

Variable version : string.

(** Nothing after the checks asks for a confirmation. *)
Lemma mainMessage_no_confirm (args : list string) (w : world) (message : string) (answer : bool) :
  ~ In (AskConfirm message answer) (trace (Cli.mainMessage version args w)).
Proof.
  destruct (mainMessage_cases args) as [[m [type [Ha Hr]]]|Hn].
  - rewrite (mainMessage_recognized version args w m type Ha Hr).
    intros [H|[]]. discriminate.
  - destruct (mainMessage_prompted version args w Hn)
      as [pre [Hpre [_ [[_ E]|[c [msg [tail [_ [_ [_ [E [Ht _]]]]]]]]]]]];
      rewrite E; cbn [trace fst]; intros H.
    + revert H. apply (not_typing_not_In _ _ Hpre). intros K; exact K.
    + apply in_app_or in H. destruct H as [H|[H|[H|H]]]; try discriminate.
      * revert H. apply (not_typing_not_In _ _ Hpre). intros K; exact K.
      * revert H. apply (not_reporting_not_In _ _ Ht). intros K; exact K.
Qed.

(** A trace without a commit cannot be cut at one. *)
Lemma quiet_no_commit (t pre post : list event) (command : string) :
  Forall quiet t -> t = (pre ++ Exec command :: post)%list -> isCommit command = true -> False.
Proof.
  intros Q E C. rewrite Forall_forall in Q.
  assert (H : quiet (Exec command)) by (apply Q; rewrite E; apply in_elt).
  cbn in H. congruence.
Qed.

End CliConfirmations.

(** ** The listing and the version check *)

Lemma split_not_nil (c : ascii) (s : string) : JS.split c s <> [].
Proof.
  induction s as [|a s IH]; cbn [JS.split]; [discriminate|].
  destruct (Ascii.eqb a c); [discriminate|].
  destruct (JS.split c s); discriminate.
Qed.

Lemma strictEq_spec (a b : option string) : JS.strictEq a b = true <-> a = b.
Proof.
  destruct a as [x|], b as [y|]; cbn [JS.strictEq];
    try (split; [discriminate|discriminate]); [|tauto].
  rewrite String.eqb_eq. split; [intros ->; reflexivity|intros H; now injection H].
Qed.

Lemma outdated_spec (latestVersion currentVersion : string) :
  Cli.outdated latestVersion currentVersion = true <->
  nth_error (JS.split "." latestVersion) 0 <> nth_error (JS.split "." currentVersion) 0 \/
  nth_error (JS.split "." latestVersion) 1 <> nth_error (JS.split "." currentVersion) 1.
Proof.
  unfold Cli.outdated. rewrite orb_true_iff, !negb_true_iff.
  rewrite <- !not_true_iff_false, !strictEq_spec. tauto.
Qed.

(** ** The recognized prefixes *)

(** A message is recognized exactly when it begins with the emoji of a
    type of the table, as the table writes it, two spaces and the name of
    that type. *)
Lemma recognized_spec (message : string) :
  Cli.recognized message <> None <->
  exists type rest,
    In type (Cli.values Cli.commitTypes) /\
    message = (Cli.emoji type ++ "  " ++ Cli.name type) ++ rest.
Proof.
  unfold Cli.recognized, JS.startsWith. split.
  - destruct (find _ _) as [type|] eqn:F; [intros _|intros N; now contradiction N].
    apply find_some in F. destruct F as [Hin P].
    apply prefix_spec in P. destruct P as [rest P].
    exists type, rest. split; assumption.
  - intros [type [rest [Hin E]]] F.
    pose proof (find_none _ _ F type Hin) as N. cbv beta in N.
    assert (P : String.prefix (Cli.emoji type ++ "  " ++ Cli.name type) message = true).
    { apply prefix_spec. exists rest. exact E. }
    rewrite P in N. discriminate.
Qed.

(** * Properties of the specification *)


(** C1: the validation function of the commit message prompt, in both
    scripts, returns [true] for every text that is not empty and the
    number 0, which the prompt does not take, for the empty text.  So in
    every run that reaches the prompt, each commit command spawned carries
    a line typed at the prompt that is not empty, under one of the labels
    of the script, and it is the command of no empty message. *)
Theorem empty_commit_message_rejected :
  (forall (value : string) (w : world),
      value <> "" ->
      Cli.validate value w = ([], Done (Inquirer.VBool true)) /\
      Legacy.validate value w = ([], Done (Inquirer.VBool true))) /\
  (forall w : world,
      Cli.validate "" w = ([ConsoleLog [Str Cli.msgInvalid]], Done (Inquirer.VNum 0)) /\
      Legacy.validate "" w = ([ConsoleLog [Str Legacy.msgInvalid]], Done (Inquirer.VNum 0)) /\
      Inquirer.accepted (Inquirer.VNum 0) = false) /\
  (forall (version : string) (opts : Cli.options) (args : list string) (w : world)
          (command : string),
      In (AskInput Cli.msgCommitMessage) (trace (Cli.main version opts args w)) ->
      In (Exec command) (trace (Cli.main version opts args w)) ->
      isCommit command = true ->
      (exists c msg,
          In c Cli.choices /\ In msg (typed w) /\ msg <> "" /\
          command = Cli.commitCommand (formatted c) msg) /\
      (forall c, In c Cli.choices -> command <> Cli.commitCommand (formatted c) "")) /\
  (forall (version : string) (p : Legacy.program) (w : world) (command : string),
      In (AskInput Legacy.msgCommitMessage) (trace (Legacy.script version p w)) ->
      In (Exec command) (trace (Legacy.script version p w)) ->
      isCommit command = true ->
      (exists c msg,
          In c Legacy.choices /\ In msg (typed w) /\ msg <> "" /\
          command = Legacy.commitCommand (cleaned c) msg) /\
      (forall c, In c Legacy.choices -> command <> Legacy.commitCommand (cleaned c) "")).
Proof.
  split; [|split; [|split]].
  - intros value w H. split; [|rewrite legacy_validate]; apply validate_nonempty, H.
  - intros w. repeat split.
  - intros version opts args w command Hask Hin Hc.
    assert (Hc' : In command (commitsOf (trace (Cli.main version opts args w)))).
    { apply commitsOf_In. split; assumption. }
    destruct (main_commits version opts args w)
      as [E|[c [msg [Hch [Hm [_ [Ht [E _]]]]]]]]; rewrite E in Hc'; [contradiction|].
    destruct Hc' as [<-|[]]. split.
    + exists c, msg. repeat split; try assumption. exact (Ht Hask).
    + intros c' Hc'' Eq. exact (Hm (commitCommand_empty c c' msg Hch Hc'' Eq)).
  - intros version p w command Hask Hin Hc.
    destruct (legacy_prompted_commit version p w command Hask Hin Hc)
      as [c [msg [Hch [Hm [Ht ->]]]]]. split.
    + exists c, msg. repeat split; assumption.
    + intros c' Hc'' Eq. exact (Hm (legacy_commitCommand_empty c c' msg Hch Hc'' Eq)).
Qed.

Lemma empty_commit_message_rejected_witness :
  Cli.validate "wip" commitAccepted = ([], Done (Inquirer.VBool true)) /\
  (exists c msg,
      In c Cli.choices /\ In msg (typed commitAccepted) /\ msg <> "" /\
      Cli.commitCommand "fix 🐛" "wip" = Cli.commitCommand (formatted c) msg) /\
  (exists c msg,
      In c Legacy.choices /\ In msg (typed commitAccepted) /\ msg <> "" /\
      Legacy.commitCommand "⚡  IMPROVE" "wip" = Legacy.commitCommand (cleaned c) msg).
Proof.
  destruct empty_commit_message_rejected as [V [_ [C L]]].
  split; [|split].
  - apply (V "wip" commitAccepted). discriminate.
  - apply (C "1.2.9" plain [] commitAccepted (Cli.commitCommand "fix 🐛" "wip")).
    + vm_compute. tauto.
    + vm_compute. tauto.
    + reflexivity.
  - apply (L "1.2.9" (noFlag []) commitAccepted (Legacy.commitCommand "⚡  IMPROVE" "wip")).
    + vm_compute. tauto.
    + vm_compute. tauto.
    + reflexivity.
Defined.

(** C2: a message that begins with the emoji of a type of the table (as
    the table writes it: the one of refactor ends in a blank), two spaces
    and the name of that type is recognized, for every type of the table.
    With such a first argument no run shows the type prompt, and a run
    that passes the checks of the staged files ends by telling that the
    message looks good.  The type prompt is shown only for a message that
    begins with no such prefix, and it is shown for every such message
    that is not empty once the checks are passed. *)
Theorem recognized_prefix_skips_type_prompt :
  forall (version : string) (opts : Cli.options) (args : list string) (w : world)
         (message : string),
    hd_error args = Some message ->
    (Cli.recognized message <> None <->
     exists type rest,
       In type (Cli.values Cli.commitTypes) /\
       message = (Cli.emoji type ++ "  " ++ Cli.name type) ++ rest) /\
    (forall type rest,
        In type (Cli.values Cli.commitTypes) ->
        message = (Cli.emoji type ++ "  " ++ Cli.name type) ++ rest ->
        (forall answer,
            ~ In (AskList Cli.msgCommitType answer) (trace (Cli.main version opts args w))) /\
        (passesChecks opts w ->
         exists gates,
           Forall gateEvent gates /\
           Cli.main version opts args w =
             ((gates ++ [ConsoleLog [Str Cli.msgLooksGood]])%list, Done tt))) /\
    (forall answer,
        In (AskList Cli.msgCommitType answer) (trace (Cli.main version opts args w)) ->
        forall type rest,
          In type (Cli.values Cli.commitTypes) ->
          message <> (Cli.emoji type ++ "  " ++ Cli.name type) ++ rest) /\
    (passesChecks opts w -> message <> "" ->
     (forall type rest,
         In type (Cli.values Cli.commitTypes) ->
         message <> (Cli.emoji type ++ "  " ++ Cli.name type) ++ rest) ->
     exists answer,
       In (AskList Cli.msgCommitType answer) (trace (Cli.main version opts args w))).
Proof.
  intros version opts args w message Ha.
  assert (N : forall type, Cli.recognized message = Some type ->
                forall answer,
                  ~ In (AskList Cli.msgCommitType answer)
                       (trace (Cli.main version opts args w))).
  { intros type Hr answer Hin.
    destruct (main_shape version opts args w) as [gates [rest [E [G H]]]].
    rewrite E in Hin. apply in_app_or in Hin. destruct Hin as [Hin|Hin].
    - revert Hin. apply (not_gateEvent_not_In _ _ G). intros K; exact K.
    - destruct H as [[line [-> _]]|[[-> _]|[-> _]]].
      + destruct Hin as [Hin|[]]. discriminate.
      + destruct Hin.
      + rewrite (mainMessage_recognized version args w message type Ha Hr) in Hin.
        destruct Hin as [Hin|[]]. discriminate. }
  assert (S : forall type rest,
             In type (Cli.values Cli.commitTypes) ->
             message = (Cli.emoji type ++ "  " ++ Cli.name type) ++ rest ->
             exists found, Cli.recognized message = Some found).
  { intros type rest Hin E.
    destruct (Cli.recognized message) as [found|] eqn:R; [exists found; reflexivity|].
    exfalso. apply (proj2 (recognized_spec message)); [|exact R].
    exists type, rest. split; assumption. }
  split; [exact (recognized_spec message)|split; [|split]].
  - intros type rest Hin E. destruct (S type rest Hin E) as [found Hr].
    split; [exact (N found Hr)|].
    intros P. destruct (main_passes version opts args w P) as [gates [G Em]].
    exists gates. split; [exact G|].
    rewrite Em, (mainMessage_recognized version args w message found Ha Hr). reflexivity.
  - intros answer Hin type rest Ht E. destruct (S type rest Ht E) as [found Hr].
    exact (N found Hr answer Hin).
  - intros P Hm Hno. destruct (main_passes version opts args w P) as [gates [G E]].
    rewrite E. cbn [trace fst].
    assert (Hn : forall m type, hd_error args = Some m -> Cli.recognized m <> Some type).
    { intros m type Hm' Hr. rewrite Ha in Hm'. injection Hm' as <-.
      assert (K : Cli.recognized message <> None) by (rewrite Hr; discriminate).
      apply recognized_spec in K. destruct K as [t [rest [Ht Et]]].
      exact (Hno t rest Ht Et). }
    destruct (mainMessage_prompted version args w Hn)
      as [pre [_ [_ [[T _]|[c [msg [tail [_ [_ [_ [Em _]]]]]]]]]]].
    + rewrite Ha in T. cbn [JS.truthy] in T.
      destruct (String.eqb_spec message ""); [contradiction|discriminate].
    + exists c. rewrite Em. cbn [trace fst].
      apply in_or_app. right. apply in_or_app. right. left. reflexivity.
Qed.

Lemma recognized_prefix_skips_type_prompt_witness :
  (exists gates,
      Forall gateEvent gates /\
      Cli.main "1.2.9" plain ["🚀  build: ship it"] commitAccepted =
        ((gates ++ [ConsoleLog [Str Cli.msgLooksGood]])%list, Done tt)) /\
  (exists gates,
      Forall gateEvent gates /\
      Cli.main "1.2.9" plain ["🛠   refactor: wip"] commitAccepted =
        ((gates ++ [ConsoleLog [Str Cli.msgLooksGood]])%list, Done tt)) /\
  (exists answer,
      In (AskList Cli.msgCommitType answer)
         (trace (Cli.main "1.2.9" plain ["wip"] commitAccepted))).
Proof.
  assert (P : passesChecks plain commitAccepted).
  { split; [reflexivity|]. exists ["src/cli.ts"]. vm_compute.
    repeat split; discriminate. }
  assert (B : In {| Cli.emoji := "🚀"; Cli.name := "build";
                    Cli.description := "build for production" |}
                 (Cli.values Cli.commitTypes)).
  { vm_compute. tauto. }
  assert (R : In {| Cli.emoji := "🛠 "; Cli.name := "refactor";
                    Cli.description := "refactoring" |}
                 (Cli.values Cli.commitTypes)).
  { vm_compute. tauto. }
  assert (W : forall type rest,
             In type (Cli.values Cli.commitTypes) ->
             "wip" <> (Cli.emoji type ++ "  " ++ Cli.name type) ++ rest).
  { intros type rest Hin. cbv [Cli.values Cli.commitTypes map snd] in Hin.
    repeat (destruct Hin as [<-|Hin]; [cbn; discriminate|]). destruct Hin. }
  assert (N : "wip" <> "") by discriminate.
  split; [|split].
  - exact (proj2 (proj1 (proj2 (recognized_prefix_skips_type_prompt
                                  "1.2.9" plain ["🚀  build: ship it"] commitAccepted
                                  "🚀  build: ship it" eq_refl))
                    _ ": ship it" B eq_refl) P).
  - exact (proj2 (proj1 (proj2 (recognized_prefix_skips_type_prompt
                                  "1.2.9" plain ["🛠   refactor: wip"] commitAccepted
                                  "🛠   refactor: wip" eq_refl))
                    _ ": wip" R eq_refl) P).
  - exact (proj2 (proj2 (proj2 (recognized_prefix_skips_type_prompt
                                  "1.2.9" plain ["wip"] commitAccepted "wip" eq_refl)))
             P N W).
Defined.

(** C3 (the scripts at the failing inputs): the original script declares
    the short form -r twice, for --release and for --try; the TypeScript
    script never reads a commit-type flag, so a run with --feat asks for
    the type all the same and commits under the entry that was picked. *)
Theorem flags_do_not_decide_the_type :
  (exists d1 d2,
      In d1 Legacy.declarations /\ In d2 Legacy.declarations /\
      Legacy.long d1 = "--release" /\ Legacy.long d2 = "--try" /\
      Legacy.short d1 = Legacy.short d2) /\
  (forall version opts args w,
      Cli.main version opts args w = Cli.main version (onlyLearn opts) args w) /\
  Cli.main "1.2.9" withFeat ["wip"] commitAccepted =
    ([ Exec Cli.cmdStaged;
       AskList Cli.msgCommitType "fix 🐛: fix bug";
       Exec (Cli.commitCommand "fix 🐛" "wip");
       ConsoleLog [Str "* [main 1a2b3c4] done"];
       Exec Cli.cmdVersion ],
     Done tt).
Proof.
  split; [|split].
  - exists {| Legacy.short := "-r"; Legacy.long := "--release"; Legacy.help := "release feature" |},
           {| Legacy.short := "-r"; Legacy.long := "--try";
              Legacy.help := "add untested to production" |}.
    cbn. tauto.
  - intros version opts args w. reflexivity.
  - reflexivity.
Qed.

(** C4 (the script at the failing input): with nothing staged the listing
    prints nothing and exits with 0; splitting the empty text gives one
    empty name, the list has length 1, and the run goes on to the type
    prompt and to the commit instead of reporting that nothing is staged. *)
Theorem nothing_staged_goes_on_to_commit :
  Cli.getStagedFiles nothingStaged = ([Exec Cli.cmdStaged], Done [""]) /\
  Cli.main "1.2.9" plain ["wip"] nothingStaged =
    ([ Exec Cli.cmdStaged;
       AskList Cli.msgCommitType "fix 🐛: fix bug";
       Exec (Cli.commitCommand "fix 🐛" "wip");
       ConsoleError [Str Cli.msgUnknown; Obj {| code := CodeNum 1 |}] ],
     Done tt).
Proof. split; reflexivity. Qed.

(** C5: when a staged file has node_modules in its path, the script asks
    for a confirmation before it commits.  A run that gets past [--learn]
    shows the prompt; no commit command is spawned unless the prompt was
    answered with a yes before it; and when the answer is no, the run is
    the listing, the prompt and the line that the commit is canceled. *)
Theorem node_modules_needs_confirmation :
  forall (version : string) (opts : Cli.options) (args : list string) (w : world)
         (stagedFiles : list string) (file before after : string),
    result (Cli.getStagedFiles w) = Done stagedFiles ->
    In file stagedFiles ->
    file = before ++ "node_modules" ++ after ->
    (Cli.learn opts = false ->
     In (AskConfirm Cli.msgNodeModules (confirm w Cli.msgNodeModules))
        (trace (Cli.main version opts args w))) /\
    (forall pre command post,
        trace (Cli.main version opts args w) = (pre ++ Exec command :: post)%list ->
        isCommit command = true ->
        In (AskConfirm Cli.msgNodeModules true) pre) /\
    (Cli.learn opts = false ->
     confirm w Cli.msgNodeModules = false ->
     Cli.main version opts args w =
       ([ Exec Cli.cmdStaged;
          AskConfirm Cli.msgNodeModules false;
          ConsoleLog [Str Cli.msgCanceled] ], Done tt)).
Proof.
  intros version opts args w stagedFiles file before after Hs Hin Hf.
  assert (N : Cli.hasNodeModules stagedFiles = true).
  { apply hasNodeModules_spec. exists file, before, after. split; assumption. }
  assert (Z : (length stagedFiles =? 0)%nat = false).
  { destruct stagedFiles; [destruct Hin|reflexivity]. }
  rewrite main_run, Hs, Z, N. cbn [andb]. unfold gate1. rewrite N.
  split; [|split].
  - intros L. rewrite L.
    destruct (confirm w Cli.msgNodeModules); cbn [negb].
    + destruct (_ && _); right; left; reflexivity.
    + right. left. reflexivity.
  - intros pre command post E C.
    destruct (Cli.learn opts).
    { exfalso. refine (quiet_no_commit _ _ _ _ _ E C). repeat constructor. }
    destruct (confirm w Cli.msgNodeModules); cbn [negb] in E.
    + destruct (_ && _).
      * exfalso. refine (quiet_no_commit _ _ _ _ _ E C).
        cbn [trace fst app].
        constructor; [reflexivity|]. constructor; [exact I|].
        apply Forall_app.
        split; [apply gateEvent_quiet, gate2_gateEvent|repeat constructor].
      * cbn [trace fst app] in E.
        change (Exec Cli.cmdStaged :: AskConfirm Cli.msgNodeModules true ::
                  gate2 stagedFiles w ++ trace (Cli.mainMessage version args w))%list
          with (([Exec Cli.cmdStaged; AskConfirm Cli.msgNodeModules true] ++ gate2 stagedFiles w)
                  ++ trace (Cli.mainMessage version args w))%list in E.
        apply split_after in E.
        -- destruct E as [mid [-> _]]. apply in_or_app. left.
           apply in_or_app. left. right. left. reflexivity.
        -- apply not_gateEvent_not_In.
           ++ apply Forall_app. split; [repeat constructor|apply gate2_gateEvent].
           ++ cbn. intros K. rewrite K in C. discriminate.
    + exfalso. refine (quiet_no_commit _ _ _ _ _ E C). repeat constructor.
  - intros L D. rewrite L, D. reflexivity.
Qed.

Lemma node_modules_needs_confirmation_witness :
  Cli.main "1.2.9" plain ["wip"] vendoredDeclined =
    ([ Exec Cli.cmdStaged;
       AskConfirm Cli.msgNodeModules false;
       ConsoleLog [Str Cli.msgCanceled] ], Done tt) /\
  In (AskConfirm Cli.msgNodeModules true)
     [Exec Cli.cmdStaged; AskConfirm Cli.msgNodeModules true;
      AskList Cli.msgCommitType "fix 🐛: fix bug"].
Proof.
  split.
  - refine (proj2 (proj2 (node_modules_needs_confirmation
             "1.2.9" plain ["wip"] vendoredDeclined
             ["node_modules/left-pad/index.js"; "src/cli.ts"]
             "node_modules/left-pad/index.js" "" "/left-pad/index.js" _ _ _)) _ _).
    + reflexivity.
    + left. reflexivity.
    + reflexivity.
    + reflexivity.
    + reflexivity.
  - refine (proj1 (proj2 (node_modules_needs_confirmation
             "1.2.9" plain ["wip"] vendoredConfirmed
             ["node_modules/left-pad/index.js"; "src/cli.ts"]
             "node_modules/left-pad/index.js" "" "/left-pad/index.js" _ _ _))
             _ (Cli.commitCommand "fix 🐛" "wip") [Exec Cli.cmdVersion] _ _).
    + reflexivity.
    + left. reflexivity.
    + reflexivity.
    + reflexivity.
    + reflexivity.
Defined.

(** C6: the threshold is 30.  With 30 staged files or fewer no run shows
    the many-files prompt.  With more than 30, a run that reaches the test
    (no [--learn], no confirmation declined before) shows the prompt; no
    commit command is spawned unless the prompt was answered with a yes
    before it; and when the answer is no, the run ends with the line that
    the commit is canceled, without a commit. *)
Theorem many_files_needs_confirmation :
  forall (version : string) (opts : Cli.options) (args : list string) (w : world)
         (stagedFiles : list string),
    result (Cli.getStagedFiles w) = Done stagedFiles ->
    Cli.STAGED_FILES_WARNING_THRESHOLD = 30 /\
    (length stagedFiles <= 30 ->
     forall n answer,
       ~ In (AskConfirm (Cli.msgManyFiles n) answer) (trace (Cli.main version opts args w))) /\
    (30 < length stagedFiles ->
     (forall pre command post,
         trace (Cli.main version opts args w) = (pre ++ Exec command :: post)%list ->
         isCommit command = true ->
         In (AskConfirm (Cli.msgManyFiles (length stagedFiles)) true) pre) /\
     (Cli.learn opts = false ->
      (Cli.hasNodeModules stagedFiles = true -> confirm w Cli.msgNodeModules = true) ->
      In (AskConfirm (Cli.msgManyFiles (length stagedFiles))
                     (confirm w (Cli.msgManyFiles (length stagedFiles))))
         (trace (Cli.main version opts args w)) /\
      (confirm w (Cli.msgManyFiles (length stagedFiles)) = false ->
       Cli.main version opts args w =
         ((Exec Cli.cmdStaged :: gate1 stagedFiles w ++
           [ AskConfirm (Cli.msgManyFiles (length stagedFiles)) false;
             ConsoleLog [Str Cli.msgCanceled] ])%list, Done tt) /\
       commitsOf (trace (Cli.main version opts args w)) = []))).
Proof.
  intros version opts args w stagedFiles Hs.
  split; [reflexivity|]. rewrite main_run, Hs. split.
  - intros Le n answer.
    assert (T : (Cli.STAGED_FILES_WARNING_THRESHOLD <? length stagedFiles)%nat = false).
    { apply Nat.ltb_ge. exact Le. }
    assert (G1 : ~ In (AskConfirm (Cli.msgManyFiles n) answer) (gate1 stagedFiles w)).
    { unfold gate1. destruct (Cli.hasNodeModules stagedFiles); [|intros []].
      intros [H|[]].
      apply (f_equal (fun e => match e with AskConfirm m _ => m | _ => EmptyString end)) in H.
      cbv beta iota in H. exact (msgManyFiles_not_msgNodeModules n (eq_sym H)). }
    unfold gate2. rewrite T. cbn [andb app].
    destruct (Cli.learn opts); [intros [H|[]]; discriminate|].
    destruct (length stagedFiles =? 0)%nat; [intros [H|[H|[]]]; discriminate|].
    destruct (_ && _); cbn [trace fst]; intros [H|H]; try discriminate;
      apply in_app_or in H; destruct H as [H|H]; try exact (G1 H).
    + destruct H as [H|[]]. discriminate.
    + exact (mainMessage_no_confirm version args w _ _ H).
  - intros Lt.
    assert (T : (Cli.STAGED_FILES_WARNING_THRESHOLD <? length stagedFiles)%nat = true).
    { apply Nat.ltb_lt. exact Lt. }
    assert (Z : (length stagedFiles =? 0)%nat = false).
    { destruct stagedFiles; [inversion Lt|reflexivity]. }
    rewrite Z, T. cbn [andb]. unfold gate2. rewrite T. split.
    + intros pre command post E C.
      destruct (Cli.learn opts).
      { exfalso. refine (quiet_no_commit _ _ _ _ _ E C). repeat constructor. }
      destruct (_ && _).
      { exfalso. refine (quiet_no_commit _ _ _ _ _ E C). cbn [trace fst].
        constructor; [reflexivity|]. apply Forall_app.
        split; [apply gateEvent_quiet, gate1_gateEvent|repeat constructor]. }
      destruct (confirm w (Cli.msgManyFiles (length stagedFiles))); cbn [negb] in E.
      * cbn [trace fst] in E. rewrite app_comm_cons, app_assoc in E.
        apply split_after in E.
        -- destruct E as [mid [-> _]]. apply in_or_app. left.
           apply in_or_app. right. left. reflexivity.
        -- apply not_gateEvent_not_In.
           ++ apply Forall_app. split; [|repeat constructor].
              constructor; [reflexivity|apply gate1_gateEvent].
           ++ cbn. intros K. rewrite K in C. discriminate.
      * exfalso. refine (quiet_no_commit _ _ _ _ _ E C). cbn [trace fst].
        constructor; [reflexivity|]. apply Forall_app.
        split; [apply gateEvent_quiet, gate1_gateEvent|repeat constructor].
    + intros L H1. rewrite L.
      assert (E1 : Cli.hasNodeModules stagedFiles && negb (confirm w Cli.msgNodeModules) = false).
      { destruct (Cli.hasNodeModules stagedFiles); [|reflexivity]. now rewrite (H1 eq_refl). }
      rewrite E1. split.
      * destruct (confirm w (Cli.msgManyFiles (length stagedFiles))); cbn [negb trace fst];
          right; apply in_or_app; right; left; reflexivity.
      * intros D. rewrite D. cbn [negb trace fst]. split; [reflexivity|].
        apply quiet_commitsOf. constructor; [reflexivity|]. apply Forall_app.
        split; [apply gateEvent_quiet, gate1_gateEvent|repeat constructor].
Qed.

Lemma many_files_needs_confirmation_witness :
  Cli.main "1.2.9" plain ["wip"] (thirtyOne false) =
    ([ Exec Cli.cmdStaged;
       AskConfirm (Cli.msgManyFiles 31) false;
       ConsoleLog [Str Cli.msgCanceled] ], Done tt) /\
  In (AskConfirm (Cli.msgManyFiles 31) true)
     (trace (Cli.main "1.2.9" plain ["wip"] (thirtyOne true))) /\
  ~ In (AskConfirm (Cli.msgManyFiles 31) true)
       (trace (Cli.main "1.2.9" plain ["wip"] commitAccepted)).
Proof.
  assert (L : length (repeat "a.js" 31) = 31) by reflexivity.
  pose proof (many_files_needs_confirmation
                "1.2.9" plain ["wip"] (thirtyOne false) (repeat "a.js" 31) eq_refl)
    as [_ [_ A]].
  pose proof (many_files_needs_confirmation
                "1.2.9" plain ["wip"] (thirtyOne true) (repeat "a.js" 31) eq_refl)
    as [_ [_ B]].
  pose proof (many_files_needs_confirmation
                "1.2.9" plain ["wip"] commitAccepted ["src/cli.ts"] eq_refl)
    as [_ [D _]].
  rewrite L in A, B.
  assert (Lt : 30 < 31) by lia.
  assert (Le : length ["src/cli.ts"] <= 30) by (cbn; lia).
  assert (Hn : Cli.hasNodeModules (repeat "a.js" 31) = true -> false = true)
    by (vm_compute; discriminate).
  assert (Hy : Cli.hasNodeModules (repeat "a.js" 31) = true -> true = true)
    by reflexivity.
  split; [|split].
  - exact (proj1 (proj2 (proj2 (A Lt) eq_refl Hn) eq_refl)).
  - exact (proj1 (proj2 (B Lt) eq_refl Hy)).
  - exact (D Le 31 true).
Defined.

(** C7: when the spawned commit command fails, [makeCommit] sorts the
    failure by its exit code.  Code 128 gives the two lines about unmerged
    files on the error console, every other error gives the line about an
    unknown error, with the error itself.  Either way the report is all
    that follows the command: [makeCommit] ends normally, the command was
    spawned once, and no run of the script spawns a second commit. *)
Theorem commit_failure_classified_by_exit_code :
  forall (version commitType commitMessage : string) (w : world) (err : ExecException),
    child_error (shell w (Cli.commitCommand (formatted commitType) commitMessage)) = Some err ->
    (code err = CodeNum 128 ->
     trace (Cli.makeCommit version commitType commitMessage w) =
       [ Exec (Cli.commitCommand (formatted commitType) commitMessage);
         ConsoleError [Str Cli.msgUnmerged];
         ConsoleError [Str Cli.msgResolve] ]) /\
    (code err <> CodeNum 128 ->
     trace (Cli.makeCommit version commitType commitMessage w) =
       [ Exec (Cli.commitCommand (formatted commitType) commitMessage);
         ConsoleError [Str Cli.msgUnknown; Obj err] ]) /\
    result (Cli.makeCommit version commitType commitMessage w) = Done tt /\
    commitsOf (trace (Cli.makeCommit version commitType commitMessage w)) =
      [Cli.commitCommand (formatted commitType) commitMessage] /\
    (forall opts args, length (commitsOf (trace (Cli.main version opts args w))) <= 1).
Proof.
  intros version commitType commitMessage w err H.
  rewrite (makeCommit_failure version _ _ _ _ H). cbn [trace result fst snd].
  split; [|split; [|split; [reflexivity|split]]].
  - intros E. rewrite E. reflexivity.
  - intros N. destruct (code err) as [n| |]; try reflexivity.
    destruct n as [|p|p]; try reflexivity.
    do 8 (destruct p as [p|p|]; try reflexivity).
    now contradiction N.
  - cbn [commitsOf]. rewrite isCommit_commitCommand. f_equal.
    apply quiet_commitsOf. destruct (code err) as [n| |]; repeat constructor.
    destruct n as [|p|p]; repeat constructor.
    do 8 (destruct p as [p|p|]; repeat constructor).
  - intros opts args.
    destruct (main_commits version opts args w) as [E|[c [msg [_ [_ [_ [_ [E _]]]]]]]];
      rewrite E; cbn [length]; lia.
Qed.

Lemma commit_failure_classified_by_exit_code_witness :
  trace (Cli.makeCommit "1.2.9" "fix 🐛: fix bug" "wip" unmerged) =
    [ Exec (Cli.commitCommand "fix 🐛" "wip");
      ConsoleError [Str Cli.msgUnmerged];
      ConsoleError [Str Cli.msgResolve] ] /\
  trace (Cli.makeCommit "1.2.9" "fix 🐛: fix bug" "wip" commitRefused) =
    [ Exec (Cli.commitCommand "fix 🐛" "wip");
      ConsoleError [Str Cli.msgUnknown; Obj {| code := CodeNum 1 |}] ].
Proof.
  split.
  - apply (commit_failure_classified_by_exit_code
             "1.2.9" "fix 🐛: fix bug" "wip" unmerged {| code := CodeNum 128 |});
      reflexivity.
  - apply (commit_failure_classified_by_exit_code
             "1.2.9" "fix 🐛: fix bug" "wip" commitRefused {| code := CodeNum 1 |});
      [reflexivity|discriminate].
Defined.


(** C8 (the original script at the failing input): with 1.2.9 installed
    and 1.2.10 published, only the patch component differs, yet dropping
    the last character leaves two different texts and the notice is
    printed.  The TypeScript script prints nothing there. *)
Theorem legacy_notice_for_patch_release :
  Legacy.outdated "1.2.9" (lines ["1.2.10"; ""]) = true /\
  Legacy.checkVersion "1.2.9" patchRelease =
    ([ Exec Legacy.cmdVersion;
       ConsoleLog (Legacy.updateNotice (lines ["1.2.10"; ""])) ], Done tt) /\
  Cli.checkVersion "1.2.9" patchRelease = ([Exec Cli.cmdVersion], Done tt).
Proof. repeat split. Qed.

(** C9 (as the claim states it, refuted): git refuses the commit with
    status 1, the script reports the error and runs to its end, and the
    process exits with status 0. *)
Lemma exit_status_zero_after_refused_commit :
  child_error (shell commitRefused (Cli.commitCommand "fix 🐛" "wip"))
    = Some {| code := CodeNum 1 |} /\
  trace (Cli.main "1.2.9" plain ["wip"] commitRefused) =
    [ Exec Cli.cmdStaged;
      AskList Cli.msgCommitType "fix 🐛: fix bug";
      Exec (Cli.commitCommand "fix 🐛" "wip");
      ConsoleError [Str Cli.msgUnknown; Obj {| code := CodeNum 1 |}] ] /\
  exitStatus (result (Cli.main "1.2.9" plain ["wip"] commitRefused)) = Some 0%Z.
Proof. repeat split. Qed.

(** C9 (amended): the exit status does not follow the commit command.
    Every run that spawns a commit command runs to its end and exits with
    status 0, whether the command succeeded or failed; a failure only
    shows on the error console.  A run that exits with another status has
    spawned no commit command at all. *)
Theorem exit_status_ignores_commit_result :
  forall (version : string) (opts : Cli.options) (args : list string) (w : world)
         (command : string),
    In (Exec command) (trace (Cli.main version opts args w)) ->
    isCommit command = true ->
    exitStatus (result (Cli.main version opts args w)) = Some 0%Z /\
    (child_error (shell w command) <> None ->
     exists a, In (ConsoleError a) (trace (Cli.main version opts args w))) /\
    (forall opts' args' w',
        exitStatus (result (Cli.main version opts' args' w')) <> Some 0%Z ->
        commitsOf (trace (Cli.main version opts' args' w')) = []).
Proof.
  intros version opts args w command Hin Hc.
  assert (Hc' : In command (commitsOf (trace (Cli.main version opts args w)))).
  { apply commitsOf_In. split; assumption. }
  split; [|split].
  - destruct (main_commits version opts args w) as [E|[c [msg [_ [_ [_ [_ [_ [R _]]]]]]]]].
    + rewrite E in Hc'. contradiction.
    + rewrite R. reflexivity.
  - destruct (main_commits version opts args w) as [E|[c [msg [_ [_ [_ [_ [E [_ F]]]]]]]]].
    + rewrite E in Hc'. contradiction.
    + rewrite E in Hc'. destruct Hc' as [<-|[]]. exact F.
  - intros opts' args' w' N.
    destruct (main_commits version opts' args' w') as [E|[c [msg [_ [_ [_ [_ [_ [R _]]]]]]]]].
    + exact E.
    + rewrite R in N. now contradiction N.
Qed.

Lemma exit_status_ignores_commit_result_witness :
  exitStatus (result (Cli.main "1.2.9" plain ["wip"] commitRefused)) = Some 0%Z /\
  exitStatus (result (Cli.main "1.2.9" plain ["wip"] commitAccepted)) = Some 0%Z.
Proof.
  split.
  - apply (exit_status_ignores_commit_result
             "1.2.9" plain ["wip"] commitRefused (Cli.commitCommand "fix 🐛" "wip")).
    + vm_compute. tauto.
    + reflexivity.
  - apply (exit_status_ignores_commit_result
             "1.2.9" plain ["wip"] commitAccepted (Cli.commitCommand "fix 🐛" "wip")).
    + vm_compute. tauto.
    + reflexivity.
Defined.

(** C10: when the first argument bears a recognized prefix, the only
    child a run spawns is the listing of the staged files, so no commit
    command is executed and the repository stays as it was.  A run that
    passes the checks of the staged files prints one line, that the commit
    message looks good, and ends. *)
Theorem recognized_prefix_spawns_no_commit :
  forall (version : string) (opts : Cli.options) (args : list string) (w : world)
         (message : string) (type : Cli.CommitType),
    hd_error args = Some message ->
    Cli.recognized message = Some type ->
    (forall command,
        In (Exec command) (trace (Cli.main version opts args w)) ->
        command = Cli.cmdStaged) /\
    commitsOf (trace (Cli.main version opts args w)) = [] /\
    (passesChecks opts w ->
     result (Cli.main version opts args w) = Done tt /\
     In (ConsoleLog [Str Cli.msgLooksGood]) (trace (Cli.main version opts args w)) /\
     (forall a, In (ConsoleLog a) (trace (Cli.main version opts args w)) ->
                a = [Str Cli.msgLooksGood]) /\
     (forall a, ~ In (ConsoleError a) (trace (Cli.main version opts args w)))).
Proof.
  intros version opts args w message type Ha Hr.
  pose proof (mainMessage_recognized version args w message type Ha Hr) as M.
  split; [|split].
  - intros command Hin.
    destruct (main_shape version opts args w) as [gates [rest [E [G H]]]].
    rewrite E in Hin. apply in_app_or in Hin. destruct Hin as [Hin|Hin].
    + rewrite Forall_forall in G. exact (G _ Hin).
    + destruct H as [[line [-> _]]|[[-> _]|[-> _]]].
      * destruct Hin as [Hin|[]]. discriminate.
      * destruct Hin.
      * rewrite M in Hin. destruct Hin as [Hin|[]]. discriminate.
  - destruct (main_commits version opts args w)
      as [E|[c [msg [_ [_ [_ [_ [E _]]]]]]]]; [exact E|].
    exfalso.
    assert (Hin : In (Cli.commitCommand (formatted c) msg)
                     (commitsOf (trace (Cli.main version opts args w)))).
    { rewrite E. left. reflexivity. }
    apply commitsOf_In in Hin. destruct Hin as [Hin _].
    destruct (main_shape version opts args w) as [gates [rest [E' [G H]]]].
    rewrite E' in Hin. apply in_app_or in Hin. destruct Hin as [Hin|Hin].
    + rewrite Forall_forall in G. specialize (G _ Hin). cbn in G. discriminate.
    + destruct H as [[line [-> _]]|[[-> _]|[-> _]]].
      * destruct Hin as [Hin|[]]. discriminate.
      * destruct Hin.
      * rewrite M in Hin. destruct Hin as [Hin|[]]. discriminate.
  - intros P. destruct (main_passes version opts args w P) as [gates [G E]].
    rewrite E, M. cbn [trace result fst snd]. split; [reflexivity|split; [|split]].
    + apply in_or_app. right. left. reflexivity.
    + intros a Hin. apply in_app_or in Hin. destruct Hin as [Hin|[Hin|[]]].
      * exfalso. revert Hin. apply (not_gateEvent_not_In _ _ G). intros K; exact K.
      * injection Hin as <-. reflexivity.
    + intros a Hin. apply in_app_or in Hin. destruct Hin as [Hin|[Hin|[]]].
      * revert Hin. apply (not_gateEvent_not_In _ _ G). intros K; exact K.
      * discriminate.
Qed.

Lemma recognized_prefix_spawns_no_commit_witness :
  commitsOf (trace (Cli.main "1.2.9" plain ["🐛  fix: wip"] commitAccepted)) = [] /\
  result (Cli.main "1.2.9" plain ["🐛  fix: wip"] commitAccepted) = Done tt.
Proof.
  assert (H : passesChecks plain commitAccepted).
  { split; [reflexivity|]. exists ["src/cli.ts"]. vm_compute.
    repeat split; discriminate. }
  destruct (recognized_prefix_spawns_no_commit
              "1.2.9" plain ["🐛  fix: wip"] commitAccepted "🐛  fix: wip"
              {| Cli.emoji := "🐛"; Cli.name := "fix"; Cli.description := "fix bug" |}
              eq_refl eq_refl) as [_ [C P]].
  split; [exact C|exact (proj1 (P H))].
Defined.

(** * Further facts *)

(** ** Words, lines and trimming *)

Lemma visible_range (a : ascii) :
  visible a = true -> 33 <= nat_of_ascii a <= 126.
Proof.
  unfold visible. rewrite andb_true_iff, !Nat.leb_le. tauto.
Qed.

Ltac no_code n :=
  repeat match goal with
         | |- context [(n =? ?k)%nat] =>
             replace (n =? k)%nat with false by (symmetry; apply Nat.eqb_neq; lia)
         | |- context [(?k <=? n)%nat] =>
             replace (k <=? n)%nat with false by (symmetry; apply Nat.leb_gt; lia)
         end.

Lemma trimStartL_visible (l : list ascii) : startsVisible l -> JS.trimStartL l = l.
Proof.
  destruct l as [|a l]; [intros []|]. intros V. apply visible_range in V.
  cbn [JS.trimStartL]. unfold JS.ws1, JS.ws2, JS.ws3. cbv zeta.
  set (n := nat_of_ascii a) in *.
  replace (n <=? 13)%nat with false by (symmetry; apply Nat.leb_gt; lia).
  no_code n. rewrite andb_false_r. cbn [orb andb].
  destruct l as [|b l]; [reflexivity|]. destruct l; reflexivity.
Qed.

Lemma trimEndL_visible (l : list ascii) : startsVisible l -> JS.trimEndL l = l.
Proof.
  destruct l as [|c l]; [intros []|]. intros V. apply visible_range in V.
  cbn [JS.trimEndL]. unfold JS.ws1, JS.ws2, JS.ws3. cbv zeta.
  set (n := nat_of_ascii c) in *.
  replace (n <=? 13)%nat with false by (symmetry; apply Nat.leb_gt; lia).
  no_code n. rewrite ?andb_false_r. cbn [orb andb].
  destruct l as [|b l]; [reflexivity|]. rewrite ?andb_false_r.
  destruct l; [reflexivity|]. rewrite ?andb_false_r. cbn [orb]. reflexivity.
Qed.

Lemma list_ascii_app (s t : string) :
  list_ascii_of_string (s ++ t) = (list_ascii_of_string s ++ list_ascii_of_string t)%list.
Proof.
  induction s as [|a s IH]; [reflexivity|]. cbn. now rewrite IH.
Qed.

Lemma startsVisible_app (l m : list ascii) : startsVisible l -> startsVisible (l ++ m)%list.
Proof. destruct l; [intros []|intros H; exact H]. Qed.

(** A text that begins and ends with a visible character is its own trim,
    with or without a newline after it. *)
Lemma trim_visible (s : string) :
  startsVisible (list_ascii_of_string s) ->
  startsVisible (rev (list_ascii_of_string s)) ->
  JS.trim s = s /\ JS.trim (s ++ String JS.newline "") = s.
Proof.
  intros H1 H2. unfold JS.trim. split.
  - rewrite (trimStartL_visible _ H1), (trimEndL_visible _ H2), rev_involutive.
    apply string_of_list_ascii_of_string.
  - rewrite list_ascii_app.
    rewrite (trimStartL_visible _ (startsVisible_app _ _ H1)).
    rewrite rev_app_distr. cbn [list_ascii_of_string rev app].
    change (JS.trimEndL (JS.newline :: rev (list_ascii_of_string s)))
      with (JS.trimEndL (rev (list_ascii_of_string s))).
    rewrite (trimEndL_visible _ H2), rev_involutive.
    apply string_of_list_ascii_of_string.
Qed.

Lemma word_starts (s : string) :
  word s = true ->
  startsVisible (list_ascii_of_string s) /\ startsVisible (rev (list_ascii_of_string s)).
Proof.
  unfold word. destruct s as [|a s]; [discriminate|]. cbn [String.eqb negb andb].
  revert a. induction s as [|b s IH]; intros a; cbn [allVisible]; rewrite andb_true_iff.
  - intros [V _]. split; exact V.
  - intros [V W]. split; [exact V|].
    destruct (IH b W) as [_ R]. cbn [list_ascii_of_string rev] in *.
    apply startsVisible_app. exact R.
Qed.

(** The lines of a listing: words joined by newlines begin and end with a
    visible character. *)
Lemma lines_start (names : list string) :
  names <> [] -> forallb word names = true ->
  startsVisible (list_ascii_of_string (lines names)) /\
  startsVisible (rev (list_ascii_of_string (lines names))).
Proof.
  unfold lines. induction names as [|n names IH]; [intros N; now contradiction N|].
  intros _. cbn [forallb]. rewrite andb_true_iff. intros [W F].
  destruct (word_starts n W) as [S1 S2].
  destruct names as [|m names]; [cbn [String.concat]; split; assumption|].
  change (String.concat (String JS.newline "") (n :: m :: names))
    with (n ++ String JS.newline (String.concat (String JS.newline "") (m :: names))).
  rewrite list_ascii_app. cbn [list_ascii_of_string]. split.
  - apply startsVisible_app. exact S1.
  - rewrite rev_app_distr. cbn [rev]. rewrite <- app_assoc.
    apply startsVisible_app. apply IH; [discriminate|exact F].
Qed.

Lemma append_associative (a b c : string) : (a ++ b) ++ c = a ++ b ++ c.
Proof. induction a as [|x a IH]; [reflexivity|]. cbn. now rewrite IH. Qed.

Lemma append_empty_r (s : string) : s ++ "" = s.
Proof. induction s as [|a s IH]; [reflexivity|]. cbn. now rewrite IH. Qed.

Lemma split_word (n rest : string) (c : ascii) :
  allVisible n = true -> visible c = false ->
  JS.split c (n ++ rest) =
  match JS.split c rest with
  | [] => [n]
  | piece :: pieces => (n ++ piece) :: pieces
  end.
Proof.
  intros W C. induction n as [|a n IH]; cbn [String.append].
  - destruct (JS.split c rest) eqn:E; [|reflexivity].
    exfalso. exact (split_not_nil _ _ E).
  - cbn [allVisible] in W. apply andb_true_iff in W. destruct W as [V W].
    cbn [JS.split]. destruct (Ascii.eqb_spec a c) as [->|N]; [congruence|].
    rewrite (IH W). destruct (JS.split c rest); reflexivity.
Qed.

(** Splitting at the newlines gives back the words that were joined. *)
Lemma split_lines (names : list string) :
  names <> [] -> forallb word names = true ->
  JS.split JS.newline (lines names) = names.
Proof.
  unfold lines. induction names as [|n names IH]; [intros N; now contradiction N|].
  intros _. cbn [forallb]. rewrite andb_true_iff. intros [W F].
  assert (V : allVisible n = true).
  { unfold word in W. apply andb_true_iff in W. tauto. }
  destruct names as [|m names].
  - cbn [String.concat]. rewrite <- (append_empty_r n) at 1.
    rewrite (split_word n "" JS.newline V eq_refl). cbn [JS.split].
    now rewrite append_empty_r.
  - change (String.concat (String JS.newline "") (n :: m :: names))
      with (n ++ String JS.newline (String.concat (String JS.newline "") (m :: names))).
    rewrite (split_word n _ JS.newline V eq_refl).
    cbn [JS.split]. rewrite Ascii.eqb_refl.
    rewrite (IH ltac:(discriminate) F). now rewrite append_empty_r.
Qed.

(** ** More on the runs of the TypeScript script *)

Section CliMore.

Variable version : string.

(** The questions and the commit, with the trace of [makeCommit] kept
    whole. *)
Lemma mainMessage_prompted_run (args : list string) (w : world) :
  (forall message type, hd_error args = Some message -> Cli.recognized message <> Some type) ->
  exists pre,
    Forall typing pre /\
    (JS.truthy (hd_error args) = false /\ Cli.mainMessage version args w = (pre, Pending) \/
     exists c msg,
       In c Cli.choices /\ msg <> "" /\
       Cli.mainMessage version args w =
         ((pre ++ AskList Cli.msgCommitType c ::
             trace (Cli.makeCommit version c msg w))%list, Done tt)).
Proof.
  intros Hn. unfold Cli.mainMessage.
  destruct (prompt_run args w) as [pre [Hpre [Hask P]]].
  exists pre. split; [exact Hpre|].
  destruct (JS.truthy (hd_error args)) eqn:T; cbn [negb].
  - destruct (hd_error args) as [m|] eqn:Ha; [|discriminate].
    assert (Hm : m <> "").
    { cbn [JS.truthy] in T. destruct (String.eqb_spec m ""); [discriminate|assumption]. }
    assert (W : Cli.when args = false).
    { unfold Cli.when. rewrite Ha, T. cbn [negb orb].
      destruct args; [discriminate|reflexivity]. }
    cbn [JS.template].
    destruct (Cli.recognized m) as [type|] eqn:R.
    { exfalso. exact (Hn m type eq_refl R). }
    destruct P as [[W' _]|[c [Hc [[_ [E P]]|[W' _]]]]]; try congruence.
    subst pre. right. exists c, m. split; [exact Hc|split; [exact Hm|]].
    destruct (makeCommit_run version c m w) as [tail [Em _]].
    rewrite (bind_done _ _ w _ _ P). cbn [Cli.commitType]. rewrite Em. reflexivity.
  - assert (W : Cli.when args = true).
    { unfold Cli.when. rewrite T. reflexivity. }
    destruct P as [[_ P]|[c [Hc [[W' _]|[_ [line [Hl [Hin P]]]]]]]]; try congruence.
    + left. split; [reflexivity|]. apply bind_pending. exact P.
    + right. exists c, line. split; [exact Hc|split; [exact Hl|]].
      destruct (makeCommit_run version c line w) as [tail [Em _]].
      rewrite (bind_done _ _ w _ _ P). cbn [Cli.commitType Cli.commitMessage JS.template].
      rewrite Em. cbn [trace result fst snd]. rewrite <- app_assoc. reflexivity.
Qed.

(** The input prompt answers every empty line with the same complaint and
    takes the first line that is not empty. *)
Lemma inputLoop_first_line (empties : list string) (line : string) (rest : list string)
      (w : world) :
  (forall l, In l empties -> l = "") -> line <> "" ->
  Inquirer.inputLoop Cli.validate (empties ++ line :: rest)%list w =
  ((flat_map (fun l => [Typed l; ConsoleLog [Str Cli.msgInvalid]]) empties
      ++ [Typed line])%list, Done line).
Proof.
  intros He Hl. induction empties as [|e empties IH]; cbn [app flat_map Inquirer.inputLoop].
  - rewrite (bind_done _ _ w [Typed line] tt eq_refl).
    rewrite (bind_done _ _ w _ _ (validate_nonempty _ w Hl)). reflexivity.
  - assert (E : e = "") by (apply He; left; reflexivity). subst e.
    rewrite (bind_done _ _ w [Typed ""] tt eq_refl).
    rewrite (bind_done _ _ w _ _ (validate_empty w)).
    cbn [Inquirer.accepted trace result fst snd].
    rewrite IH; [reflexivity|]. intros l Hin. apply He. right. exact Hin.
Qed.

Lemma inputLoop_only_empty (empties : list string) (w : world) :
  (forall l, In l empties -> l = "") ->
  Inquirer.inputLoop Cli.validate empties w =
  (flat_map (fun l => [Typed l; ConsoleLog [Str Cli.msgInvalid]]) empties, Pending).
Proof.
  intros He. induction empties as [|e empties IH]; cbn [flat_map Inquirer.inputLoop].
  - reflexivity.
  - assert (E : e = "") by (apply He; left; reflexivity). subst e.
    rewrite (bind_done _ _ w [Typed ""] tt eq_refl).
    rewrite (bind_done _ _ w _ _ (validate_empty w)).
    cbn [Inquirer.accepted trace result fst snd].
    rewrite IH; [reflexivity|]. intros l Hin. apply He. right. exact Hin.
Qed.

Lemma formatted_choice (type : Cli.CommitType) :
  In type (Cli.values Cli.commitTypes) ->
  formatted (Cli.name type ++ " " ++ Cli.emoji type ++ ": " ++ Cli.description type)
  = Cli.name type ++ " " ++ Cli.emoji type.
Proof.
  intros H. cbv [Cli.values Cli.commitTypes map snd] in H.
  repeat (destruct H as [H|H]; [subst type; vm_compute; reflexivity|]).
  destruct H.
Qed.

Lemma ascii_start_not_recognized (a : ascii) (rest : string) :
  nat_of_ascii a < 128 -> Cli.recognized (String a rest) = None.
Proof.
  intros H. destruct a as [b0 b1 b2 b3 b4 b5 b6 b7].
  destruct b7.
  - exfalso. destruct b0, b1, b2, b3, b4, b5, b6; cbn in H; lia.
  - destruct b0, b1, b2, b3, b4, b5, b6; reflexivity.
Qed.

End CliMore.

(** ** More on the runs of the original script *)

Section LegacyMore.

Variable version : string.

Lemma typing_asking (t : list event) : Forall typing t -> Forall asking t.
Proof. apply Forall_impl. intros [] H; cbn in *; tauto. Qed.

(** The branch without a flag, with a message on the command line. *)
Lemma interactive_message_run (p : Legacy.program) (w : world) :
  JS.truthy (hd_error (Legacy.args p)) = true ->
  Legacy.interactive version p w =
  (ConsoleLog [Str Legacy.msgPick] ::
   AskList Legacy.msgCommitType (nth (pick w) Legacy.choices (hd EmptyString Legacy.choices)) ::
   trace (Legacy.makeCommit version
            (Legacy.commitCommand
               (cleaned (nth (pick w) Legacy.choices (hd EmptyString Legacy.choices)))
               (JS.join (Legacy.args p))) w),
   Done tt).
Proof.
  intros T. unfold Legacy.interactive. rewrite T. cbn [negb orb].
  assert (L : (length (Legacy.args p) =? 0)%nat = false).
  { destruct (Legacy.args p); [discriminate|reflexivity]. }
  rewrite L.
  set (c := nth (pick w) Legacy.choices (hd EmptyString Legacy.choices)).
  rewrite (bind_done _ _ w [ConsoleLog [Str Legacy.msgPick]] tt eq_refl).
  rewrite (bind_done (Inquirer.promptList Legacy.msgCommitType Legacy.choices) _ w
             [AskList Legacy.msgCommitType c] c eq_refl).
  fold (cleaned c).
  rewrite (bind_done _ _ w [] tt eq_refl).
  destruct (legacy_makeCommit_shape version
              (Legacy.commitCommand (cleaned c) (JS.join (Legacy.args p))) w)
    as [tail [Em _]].
  rewrite Em. reflexivity.
Qed.

(** The branch without a flag: prompts, then at most one [makeCommit]. *)
Lemma interactive_run (p : Legacy.program) (w : world) :
  exists pre,
    Forall asking pre /\
    (Legacy.interactive version p w = (pre, Pending) \/
     exists c msg,
       In c Legacy.choices /\
       (JS.truthy (hd_error (Legacy.args p)) = true /\ msg = JS.join (Legacy.args p) /\
        pre = [ConsoleLog [Str Legacy.msgPick]; AskList Legacy.msgCommitType c] \/
        msg <> "" /\ In msg (typed w)) /\
       c = nth (pick w) Legacy.choices (hd EmptyString Legacy.choices) /\
       Legacy.interactive version p w =
         ((pre ++ trace (Legacy.makeCommit version (Legacy.commitCommand (cleaned c) msg) w))%list,
          Done tt)).
Proof.
  unfold Legacy.interactive.
  set (c := nth (pick w) Legacy.choices (hd EmptyString Legacy.choices)).
  rewrite (bind_done _ _ w [ConsoleLog [Str Legacy.msgPick]] tt eq_refl).
  rewrite (bind_done (Inquirer.promptList Legacy.msgCommitType Legacy.choices) _ w
             [AskList Legacy.msgCommitType c] c eq_refl).
  fold (cleaned c).
  destruct (JS.truthy (hd_error (Legacy.args p))) eqn:T; cbn [negb orb].
  - assert (L : (length (Legacy.args p) =? 0)%nat = false).
    { destruct (Legacy.args p); [discriminate|reflexivity]. }
    rewrite L.
    exists [ConsoleLog [Str Legacy.msgPick]; AskList Legacy.msgCommitType c].
    split; [repeat constructor|]. right.
    exists c, (JS.join (Legacy.args p)).
    split; [apply legacy_picked_choice|split; [left; repeat split|split; [reflexivity|]]].
    rewrite (bind_done _ _ w [] tt eq_refl).
    destruct (legacy_makeCommit_shape version
                (Legacy.commitCommand (cleaned c) (JS.join (Legacy.args p))) w)
      as [tail [Em _]].
    rewrite Em. reflexivity.
  - pose proof (promptInput_run Legacy.msgCommitMessage w) as P.
    rewrite <- legacy_validate in P.
    destruct (inputLoop_run (typed w) w) as [t [Ht [E|[line [E [Hl Hin]]]]]];
      rewrite <- legacy_validate in E; rewrite E in P; cbn [trace result fst snd] in P;
      exists (ConsoleLog [Str Legacy.msgPick] :: AskList Legacy.msgCommitType c ::
              AskInput Legacy.msgCommitMessage :: t);
      (split; [repeat (constructor; [exact I|]); apply typing_asking, Ht|]).
    + left. rewrite (bind_pending _ _ w _ (bind_pending _ _ w _ P)). reflexivity.
    + right. exists c, line.
      split; [apply legacy_picked_choice|split; [right; split; assumption|split; [reflexivity|]]].
      destruct (legacy_makeCommit_shape version (Legacy.commitCommand (cleaned c) line) w)
        as [tail [Em _]].
      erewrite bind_done; [|erewrite bind_done; [|exact P]; rewrite Em; reflexivity].
      rewrite Em. cbn [trace result fst snd ret app]. rewrite app_nil_r. reflexivity.
Qed.

(** Every run of the original script: prompts, then at most one
    [makeCommit] of a commit command. *)
Lemma legacy_script_shape (p : Legacy.program) (w : world) :
  exists pre,
    Forall asking pre /\
    (Legacy.script version p w = (pre, Pending) \/
     exists command,
       isCommit command = true /\
       Legacy.script version p w =
         ((pre ++ trace (Legacy.makeCommit version command w))%list, Done tt)).
Proof.
  assert (F : forall label,
             exists pre,
               Forall asking pre /\
               (Legacy.makeCommit version
                  (Legacy.commitCommand label (JS.join (Legacy.args p))) w = (pre, Pending) \/
                exists command,
                  isCommit command = true /\
                  Legacy.makeCommit version
                    (Legacy.commitCommand label (JS.join (Legacy.args p))) w =
                    ((pre ++ trace (Legacy.makeCommit version command w))%list, Done tt))).
  { intros label. exists []. split; [constructor|]. right.
    exists (Legacy.commitCommand label (JS.join (Legacy.args p))).
    split; [reflexivity|].
    destruct (legacy_makeCommit_shape version
                (Legacy.commitCommand label (JS.join (Legacy.args p))) w) as [tail [E _]].
    rewrite E. reflexivity. }
  unfold Legacy.script.
  repeat match goal with
         | |- context [if ?b then Legacy.makeCommit _ _ else _] =>
             destruct b; [apply F|]
         end.
  destruct (interactive_run p w) as [pre [Hp [E|[c [msg [_ [_ [_ E]]]]]]]];
    exists pre; (split; [exact Hp|]); [left; exact E|right].
  exists (Legacy.commitCommand (cleaned c) msg). split; [reflexivity|exact E].
Qed.

Lemma not_asking_not_In (e : event) (t : list event) :
  Forall asking t -> ~ asking e -> ~ In e t.
Proof.
  intros F N H. rewrite Forall_forall in F. exact (N (F e H)).
Qed.

Lemma list_ascii_length (s : string) :
  length (list_ascii_of_string s) = String.length s.
Proof. induction s as [|a s IH]; [reflexivity|]. cbn. now rewrite IH. Qed.

(** A word of two characters or more is not empty without its last one. *)
Lemma slice_word (s : string) :
  word s = true -> 2 <= String.length s -> JS.slice_0_m1 s <> "".
Proof.
  intros W L. destruct (word_starts s W) as [_ R].
  unfold JS.slice_0_m1.
  pose proof (length_rev (list_ascii_of_string s)) as Hl.
  rewrite list_ascii_length in Hl.
  destruct (rev (list_ascii_of_string s)) as [|c t]; [destruct R|].
  cbn [startsVisible] in R. apply visible_range in R. unfold nat_of_ascii in R.
  unfold JS.dropUnit.
  replace (N_of_ascii c <? 128)%N with true by (symmetry; apply N.ltb_lt; lia).
  cbn [length] in Hl.
  destruct t as [|b t]; [cbn [length] in Hl; lia|].
  cbn [rev]. destruct (rev t); discriminate.
Qed.

End LegacyMore.

(** * Further properties *)

(** The version check of the TypeScript script: once the registry has
    answered, a line is printed exactly when the first or the second
    component of the published version, cut at the dots, differs from the
    same component of the installed one.  The check follows every commit
    that went through. *)
Theorem checkVersion_notice_iff_major_or_minor_differs :
  forall (version : string) (w : world),
    child_error (shell w Cli.cmdVersion) = None ->
    ((exists a, In (ConsoleLog a) (trace (Cli.checkVersion version w))) <->
     nth_error (JS.split "." (JS.trim (child_stdout (shell w Cli.cmdVersion)))) 0
       <> nth_error (JS.split "." version) 0 \/
     nth_error (JS.split "." (JS.trim (child_stdout (shell w Cli.cmdVersion)))) 1
       <> nth_error (JS.split "." version) 1) /\
    (forall commitType commitMessage,
        child_error (shell w (Cli.commitCommand (formatted commitType) commitMessage)) = None ->
        In (Exec Cli.cmdVersion) (trace (Cli.makeCommit version commitType commitMessage w))).
Proof.
  intros version w H. split.
  - rewrite <- outdated_spec, checkVersion_run, H. cbv zeta.
    destruct (Cli.outdated _ _); cbn [trace fst]; split.
    + reflexivity.
    + intros _. eexists. right. left. reflexivity.
    + intros [a [K|[]]]. discriminate.
    + discriminate.
  - intros commitType commitMessage Hc.
    rewrite (makeCommit_success version _ _ _ Hc), checkVersion_run. cbn [trace fst].
    right. apply in_or_app. right. apply in_or_app. right. left. reflexivity.
Qed.

Lemma checkVersion_notice_iff_major_or_minor_differs_witness :
  ~ (exists a, In (ConsoleLog a) (trace (Cli.checkVersion "1.2.9" patchRelease))) /\
  (exists a, In (ConsoleLog a) (trace (Cli.checkVersion "1.1.9" patchRelease))).
Proof.
  split.
  - intros N.
    apply (proj1 (checkVersion_notice_iff_major_or_minor_differs "1.2.9" patchRelease eq_refl)) in N.
    vm_compute in N. destruct N as [N|N]; now apply N.
  - apply (proj1 (checkVersion_notice_iff_major_or_minor_differs "1.1.9" patchRelease eq_refl)).
    right. vm_compute. discriminate.
Defined.

(** The original script with exactly one flag spawns one commit command,
    whose label is the one of that flag and whose message is the words of
    the command line, joined by commas. *)
Theorem legacy_flag_selects_label :
  forall (version : string) (f : flag) (words : list string) (w : world),
    commitsOf (trace (Legacy.script version (only f words) w)) =
    [ Legacy.commitCommand
        match f with
        | Style => "💅  STYLE"
        | Bug => "🐛  BUG"
        | Improve => "⚡  IMPROVE"
        | Release => "🚀  RELEASE"
        | New => "📦  NEW"
        | Doc => "📖  DOC"
        | Try => "🤞  TRY"
        | Test => "✅  TEST"
        end
        (JS.join words) ].
Proof.
  intros version f words w.
  destruct f; unfold Legacy.script, only; cbn [Legacy.style Legacy.bug Legacy.improve
    Legacy.release Legacy.new Legacy.doc Legacy.try Legacy.test Legacy.args];
    rewrite legacy_makeCommit_run; cbn [trace fst];
    destruct (Legacy.outdated _ _); reflexivity.
Qed.

(** The short forms the TypeScript script declares are pairwise
    different, and so are the long forms. *)
Theorem declared_forms_distinct :
  NoDup shortForms /\ NoDup (map Cli.long Cli.declarations).
Proof.
  split; repeat constructor; cbn; intuition discriminate.
Qed.

(** The branch for an empty list of staged files: it is taken exactly
    when the listing fails with exit code 1, and the run is then the
    listing and the line that no files are staged. *)
Theorem no_staged_files_reported :
  forall (version : string) (opts : Cli.options) (args : list string) (w : world),
    Cli.learn opts = false ->
    (result (Cli.getStagedFiles w) = Done [] <->
     exists err, child_error (shell w Cli.cmdStaged) = Some err /\ code err = CodeNum 1) /\
    (result (Cli.getStagedFiles w) = Done [] ->
     Cli.main version opts args w =
       ([Exec Cli.cmdStaged; ConsoleLog [Str Cli.msgNoFiles]], Done tt)).
Proof.
  intros version opts args w L. split.
  - rewrite getStagedFiles_run. cbn [result snd].
    destruct (child_error (shell w Cli.cmdStaged)) as [err|]; split.
    + intros H. exists err. split; [reflexivity|].
      destruct (code err) as [n| |]; try discriminate.
      destruct n as [|p|p]; try discriminate. destruct p; try discriminate. reflexivity.
    + intros [e [H1 H2]]. injection H1 as <-. rewrite H2. reflexivity.
    + intros H. injection H as H. exfalso. exact (split_not_nil _ _ H).
    + intros [e [H _]]. discriminate.
  - intros H. rewrite main_run, L, H. reflexivity.
Qed.

Lemma no_staged_files_reported_witness :
  Cli.main "1.2.9" plain ["wip"]
    (sample (fails 1) (succeeds "") (succeeds "1.2.9") true 0 []) =
  ([Exec Cli.cmdStaged; ConsoleLog [Str Cli.msgNoFiles]], Done tt).
Proof.
  apply (proj2 (no_staged_files_reported
                  "1.2.9" plain ["wip"]
                  (sample (fails 1) (succeeds "") (succeeds "1.2.9") true 0 []) eq_refl)).
  reflexivity.
Defined.

(** The listing of the staged files, read back: when git prints one or
    more paths of visible characters, one per line, [getStagedFiles]
    returns exactly these paths, in order. *)
Theorem staged_files_read_back :
  forall (names : list string) (w : world),
    names <> [] ->
    forallb word names = true ->
    child_error (shell w Cli.cmdStaged) = None ->
    child_stdout (shell w Cli.cmdStaged) = lines names ++ String JS.newline "" ->
    Cli.getStagedFiles w = ([Exec Cli.cmdStaged], Done names).
Proof.
  intros names w N W E O. rewrite getStagedFiles_run, E, O.
  destruct (lines_start names N W) as [S1 S2].
  rewrite (proj2 (trim_visible _ S1 S2)), (split_lines names N W). reflexivity.
Qed.

Lemma staged_files_read_back_witness :
  Cli.getStagedFiles vendoredConfirmed =
  ([Exec Cli.cmdStaged], Done ["node_modules/left-pad/index.js"; "src/cli.ts"]).
Proof.
  apply (staged_files_read_back ["node_modules/left-pad/index.js"; "src/cli.ts"]
           vendoredConfirmed).
  - discriminate.
  - reflexivity.
  - reflexivity.
  - reflexivity.
Defined.

(** A listing that git rejects with anything but exit code 1 (no
    repository, git missing) ends the run on the spot: the rejection is
    not caught, nothing is printed, nothing is asked and nothing is
    committed. *)
Theorem listing_failure_ends_the_run :
  forall (version : string) (opts : Cli.options) (args : list string) (w : world)
         (err : ExecException),
    Cli.learn opts = false ->
    child_error (shell w Cli.cmdStaged) = Some err ->
    code err <> CodeNum 1 ->
    Cli.main version opts args w = ([Exec Cli.cmdStaged], Thrown err).
Proof.
  intros version opts args w err L E N.
  rewrite main_run, L, getStagedFiles_run, E. cbn [result snd].
  destruct (code err) as [n| |]; try reflexivity.
  destruct n as [|p|p]; try reflexivity.
  destruct p; try reflexivity. now contradiction N.
Qed.

Lemma listing_failure_ends_the_run_witness :
  Cli.main "1.2.9" plain ["wip"]
    (sample (fails 128) (succeeds "") (succeeds "1.2.9") true 0 ["wip"]) =
  ([Exec Cli.cmdStaged], Thrown {| code := CodeNum 128 |}).
Proof.
  apply (listing_failure_ends_the_run
           "1.2.9" plain ["wip"]
           (sample (fails 128) (succeeds "") (succeeds "1.2.9") true 0 ["wip"])
           {| code := CodeNum 128 |}).
  - reflexivity.
  - reflexivity.
  - discriminate.
Defined.

(** Without a message on the command line, a run that passes the checks
    asks for the message, answers every empty line with the complaint,
    takes the first line that is not empty, asks for the type and commits
    that line under the entry picked. *)
Theorem first_line_typed_is_committed :
  forall (version : string) (opts : Cli.options) (args : list string) (w : world)
         (empties : list string) (line : string) (rest : list string),
    passesChecks opts w ->
    JS.truthy (hd_error args) = false ->
    typed w = (empties ++ line :: rest)%list ->
    (forall l, In l empties -> l = "") ->
    line <> "" ->
    exists gates,
      Forall gateEvent gates /\
      Cli.main version opts args w =
        ((gates ++
          AskInput Cli.msgCommitMessage ::
          flat_map (fun l => [Typed l; ConsoleLog [Str Cli.msgInvalid]]) empties ++
          Typed line ::
          AskList Cli.msgCommitType (nth (pick w) Cli.choices (hd EmptyString Cli.choices)) ::
          trace (Cli.makeCommit version
                   (nth (pick w) Cli.choices (hd EmptyString Cli.choices)) line w))%list,
         Done tt).
Proof.
  intros version opts args w empties line rest P T Ht He Hl.
  destruct (main_passes version opts args w P) as [gates [G E]].
  exists gates. split; [exact G|]. rewrite E.
  unfold Cli.mainMessage. rewrite T. cbn [negb].
  assert (W : Cli.when args = true) by (unfold Cli.when; rewrite T; reflexivity).
  assert (Q : Cli.prompt args w =
              ((AskInput Cli.msgCommitMessage ::
                flat_map (fun l => [Typed l; ConsoleLog [Str Cli.msgInvalid]]) empties ++
                [Typed line; AskList Cli.msgCommitType
                               (nth (pick w) Cli.choices (hd EmptyString Cli.choices))])%list,
               Done {| Cli.commitMessage := Some line;
                       Cli.commitType :=
                         nth (pick w) Cli.choices (hd EmptyString Cli.choices) |})).
  { unfold Cli.prompt. rewrite W.
    pose proof (promptInput_run Cli.msgCommitMessage w) as I.
    rewrite Ht, (inputLoop_first_line empties line rest w He Hl) in I.
    cbn [trace result fst snd] in I.
    erewrite bind_done; [|erewrite bind_done; [reflexivity|exact I]].
    erewrite bind_done; [|reflexivity].
    cbn [trace result fst snd ret app]. f_equal. f_equal.
    now rewrite <- !app_assoc. }
  rewrite (bind_done _ _ w _ _ Q). cbn [Cli.commitType Cli.commitMessage JS.template].
  destruct (makeCommit_run version
              (nth (pick w) Cli.choices (hd EmptyString Cli.choices)) line w)
    as [tail [Em _]].
  rewrite Em. cbn [trace result fst snd app].
  f_equal. f_equal. f_equal. rewrite <- app_assoc. reflexivity.
Qed.

Lemma first_line_typed_is_committed_witness :
  exists gates,
    Forall gateEvent gates /\
    Cli.main "1.2.9" plain [] commitAccepted =
      ((gates ++
        [ AskInput Cli.msgCommitMessage;
          Typed ""; ConsoleLog [Str Cli.msgInvalid];
          Typed "wip";
          AskList Cli.msgCommitType "fix 🐛: fix bug";
          Exec (Cli.commitCommand "fix 🐛" "wip");
          ConsoleLog [Str "* [main 1a2b3c4] done"];
          Exec Cli.cmdVersion ])%list, Done tt).
Proof.
  assert (P : passesChecks plain commitAccepted).
  { split; [reflexivity|]. exists ["src/cli.ts"]. vm_compute.
    repeat split; discriminate. }
  assert (E : forall l, In l [""] -> l = "") by (intros l [<-|[]]; reflexivity).
  assert (N : "wip" <> "") by discriminate.
  exact (first_line_typed_is_committed
           "1.2.9" plain [] commitAccepted [""] "wip" [] P eq_refl eq_refl E N).
Defined.

(** Only the first word after the options counts: a run with more words
    on the command line is the run with the first one alone. *)
Theorem only_first_word_counts :
  forall (version : string) (opts : Cli.options) (args : list string) (w : world),
    Cli.main version opts args w = Cli.main version opts (firstn 1 args) w.
Proof.
  intros version opts args w.
  assert (M : Cli.mainMessage version args = Cli.mainMessage version (firstn 1 args)).
  { destruct args as [|a [|b rest]]; reflexivity. }
  rewrite !main_run, M. reflexivity.
Qed.

(** Every commit command the TypeScript script spawns reads
    [git commit -m], then, in double quotes, the name of a type of the
    table, a space, its emoji, a colon, a space and a message that is not
    empty: the first word of the command line or a line typed at the
    prompt. *)
Theorem commit_command_format :
  forall (version : string) (opts : Cli.options) (args : list string) (w : world)
         (command : string),
    In (Exec command) (trace (Cli.main version opts args w)) ->
    isCommit command = true ->
    exists type msg,
      In type (Cli.values Cli.commitTypes) /\
      msg <> "" /\
      (hd_error args = Some msg \/ In msg (typed w)) /\
      command =
        "git commit -m " ++ JS.q ++ Cli.name type ++ " " ++ Cli.emoji type ++ ": "
                         ++ msg ++ JS.q.
Proof.
  intros version opts args w command Hin Hc.
  assert (Hc' : In command (commitsOf (trace (Cli.main version opts args w)))).
  { apply commitsOf_In. split; assumption. }
  destruct (main_commits version opts args w)
    as [E|[c [msg [Hch [Hm [Hs [_ [E _]]]]]]]]; rewrite E in Hc'; [contradiction|].
  destruct Hc' as [<-|[]].
  unfold Cli.choices in Hch. apply in_map_iff in Hch. destruct Hch as [type [<- Ht]].
  exists type, msg. split; [exact Ht|split; [exact Hm|split; [exact Hs|]]].
  unfold Cli.commitCommand. rewrite (formatted_choice type Ht).
  rewrite !append_associative. reflexivity.
Qed.

Lemma commit_command_format_witness :
  exists type msg,
    In type (Cli.values Cli.commitTypes) /\
    msg <> "" /\
    (hd_error ["wip"] = Some msg \/ In msg (typed commitAccepted)) /\
    Cli.commitCommand "fix 🐛" "wip" =
      "git commit -m " ++ JS.q ++ Cli.name type ++ " " ++ Cli.emoji type ++ ": "
                       ++ msg ++ JS.q.
Proof.
  apply (commit_command_format "1.2.9" plain ["wip"] commitAccepted).
  - vm_compute. tauto.
  - reflexivity.
Defined.

(** No message that begins with an ASCII character bears a recognized
    prefix.  So the script does not recognize the messages it writes
    itself (name, space, emoji, colon): run again with such a message, a
    run that passes the checks shows the type prompt. *)
Theorem own_message_not_recognized :
  (forall (a : ascii) (rest : string),
      nat_of_ascii a < 128 -> Cli.recognized (String a rest) = None) /\
  (forall (type : Cli.CommitType) (msg : string),
      In type (Cli.values Cli.commitTypes) ->
      Cli.recognized (Cli.name type ++ " " ++ Cli.emoji type ++ ": " ++ msg) = None) /\
  (forall (version : string) (opts : Cli.options) (args : list string) (w : world)
          (type : Cli.CommitType) (msg : string),
      In type (Cli.values Cli.commitTypes) ->
      hd_error args = Some (Cli.name type ++ " " ++ Cli.emoji type ++ ": " ++ msg) ->
      passesChecks opts w ->
      exists answer,
        In (AskList Cli.msgCommitType answer) (trace (Cli.main version opts args w))).
Proof.
  assert (A : forall (type : Cli.CommitType) (msg : string),
             In type (Cli.values Cli.commitTypes) ->
             exists a rest,
               Cli.name type ++ " " ++ Cli.emoji type ++ ": " ++ msg = String a rest /\
               nat_of_ascii a < 128).
  { intros type msg H. cbv [Cli.values Cli.commitTypes map snd] in H.
    repeat (destruct H as [H|H];
            [subst type; eexists; eexists; split; [reflexivity|cbn; lia]|]).
    destruct H. }
  split; [exact ascii_start_not_recognized|split].
  - intros type msg H. destruct (A type msg H) as [a [rest [-> L]]].
    exact (ascii_start_not_recognized a rest L).
  - intros version opts args w type msg H Ha P.
    destruct (A type msg H) as [a [rest [E L]]]. rewrite E in Ha.
    destruct (main_passes version opts args w P) as [gates [_ Em]]. rewrite Em.
    cbn [trace fst].
    assert (Hn : forall m t, hd_error args = Some m -> Cli.recognized m <> Some t).
    { intros m t Hm. rewrite Ha in Hm. injection Hm as <-.
      rewrite (ascii_start_not_recognized a rest L). discriminate. }
    destruct (mainMessage_prompted version args w Hn)
      as [pre [_ [_ [[T _]|[c [m [tail [_ [_ [_ [Eq _]]]]]]]]]]].
    + rewrite Ha in T. discriminate.
    + exists c. rewrite Eq. cbn [trace fst].
      apply in_or_app. right. apply in_or_app. right. left. reflexivity.
Qed.

Lemma own_message_not_recognized_witness :
  Cli.recognized "wip" = None /\
  Cli.recognized ("fix" ++ " " ++ "🐛" ++ ": " ++ "wip") = None /\
  (exists answer,
      In (AskList Cli.msgCommitType answer)
         (trace (Cli.main "1.2.9" plain ["fix 🐛: wip"] commitAccepted))).
Proof.
  destruct own_message_not_recognized as [A [B C]].
  assert (T : In {| Cli.emoji := "🐛"; Cli.name := "fix"; Cli.description := "fix bug" |}
                 (Cli.values Cli.commitTypes)).
  { right. right. left. reflexivity. }
  split; [|split].
  - apply A. cbn. lia.
  - exact (B _ "wip" T).
  - refine (C "1.2.9" plain ["fix 🐛: wip"] commitAccepted _ "wip" T eq_refl _).
    split; [reflexivity|]. exists ["src/cli.ts"]. vm_compute.
    repeat split; discriminate.
Defined.

(** The registry is queried only after a commit command that went
    through: whenever the version query is spawned, a commit command was
    spawned before it and was not rejected. *)
Theorem version_query_only_after_commit :
  forall (version : string) (opts : Cli.options) (args : list string) (w : world)
         (pre post : list event),
    trace (Cli.main version opts args w) = (pre ++ Exec Cli.cmdVersion :: post)%list ->
    exists command,
      In (Exec command) pre /\ isCommit command = true /\
      child_error (shell w command) = None.
Proof.
  intros version opts args w pre post E.
  destruct (main_shape version opts args w) as [gates [rest [Es [G H]]]].
  rewrite Es in E. apply split_after in E.
  2:{ apply (not_gateEvent_not_In _ _ G). cbn. discriminate. }
  destruct E as [mid [-> E]].
  assert (Hin : In (Exec Cli.cmdVersion) rest) by (rewrite E; apply in_elt).
  destruct H as [[line [-> _]]|[[-> _]|[-> _]]].
  { destruct Hin as [K|[]]. discriminate. }
  { destruct Hin. }
  destruct (mainMessage_cases args) as [[m [type [Ha Hr]]]|Hn].
  { rewrite (mainMessage_recognized version args w m type Ha Hr) in Hin.
    destruct Hin as [K|[]]. discriminate. }
  destruct (mainMessage_prompted_run version args w Hn)
    as [p [Hp [[_ Em]|[c [msg [_ [_ Em]]]]]]]; rewrite Em in E, Hin; cbn [trace fst] in E, Hin.
  { exfalso. revert Hin. apply (not_typing_not_In _ _ Hp). intros K; exact K. }
  destruct (child_error (shell w (Cli.commitCommand (formatted c) msg))) as [err|] eqn:F.
  - exfalso. rewrite (makeCommit_failure version c msg w err F) in Hin. cbn [trace fst] in Hin.
    apply in_app_or in Hin. destruct Hin as [Hin|[Hin|[Hin|Hin]]]; try discriminate.
    + revert Hin. apply (not_typing_not_In _ _ Hp). intros K; exact K.
    + destruct (code err) as [n| |]; try (destruct Hin as [K|[]]; discriminate).
      destruct n as [|q|q]; try (destruct Hin as [K|[]]; discriminate).
      do 8 (destruct q as [q|q|]; try (destruct Hin as [K|[]]; discriminate)).
      destruct Hin as [K|[K|[]]]; discriminate.
  - exists (Cli.commitCommand (formatted c) msg).
    split; [|split; [reflexivity|exact F]].
    destruct (makeCommit_run version c msg w) as [tail [Et _]]. rewrite Et in E.
    cbn [trace fst] in E.
    change (p ++ AskList Cli.msgCommitType c ::
              Exec (Cli.commitCommand (formatted c) msg) :: tail)%list
      with (p ++ [AskList Cli.msgCommitType c] ++
              [Exec (Cli.commitCommand (formatted c) msg)] ++ tail)%list in E.
    rewrite !app_assoc in E. apply split_after in E.
    + destruct E as [mid' [-> _]]. apply in_or_app. right.
      apply in_or_app. left. apply in_or_app. right. left. reflexivity.
    + intros K. apply in_app_or in K. destruct K as [K|[K|[]]]; [|discriminate].
      apply in_app_or in K. destruct K as [K|[K|[]]]; [|discriminate].
      revert K. apply (not_typing_not_In _ _ Hp). intros K; exact K.
Qed.

Lemma version_query_only_after_commit_witness :
  exists command,
    In (Exec command)
       [ Exec Cli.cmdStaged; AskList Cli.msgCommitType "fix 🐛: fix bug";
         Exec (Cli.commitCommand "fix 🐛" "wip");
         ConsoleLog [Str "* [main 1a2b3c4] done"] ] /\
    isCommit command = true /\
    child_error (shell commitAccepted command) = None.
Proof.
  apply (version_query_only_after_commit "1.2.9" plain ["wip"] commitAccepted _ []).
  reflexivity.
Defined.

(** An installation that is up to date is not told to update: when the
    registry prints the installed version, a word, followed by a newline,
    neither script prints a notice. *)
Theorem up_to_date_no_notice :
  forall (version : string) (w : world),
    word version = true ->
    child_error (shell w Cli.cmdVersion) = None ->
    child_stdout (shell w Cli.cmdVersion) = version ++ String JS.newline "" ->
    Cli.checkVersion version w = ([Exec Cli.cmdVersion], Done tt) /\
    Legacy.checkVersion version w = ([Exec Legacy.cmdVersion], Done tt).
Proof.
  intros version w W E O.
  destruct (word_starts version W) as [S1 S2].
  destruct (trim_visible version S1 S2) as [T1 T2]. split.
  - rewrite checkVersion_run, E, O, T2. cbv zeta.
    assert (U : Cli.outdated version version = false).
    { unfold Cli.outdated.
      rewrite (proj2 (strictEq_spec _ _) eq_refl), (proj2 (strictEq_spec _ _) eq_refl).
      reflexivity. }
    rewrite U. reflexivity.
  - unfold Legacy.checkVersion.
    rewrite (bind_done _ _ w [Exec Legacy.cmdVersion] _ eq_refl).
    change Legacy.cmdVersion with Cli.cmdVersion. rewrite O.
    unfold Legacy.outdated. rewrite T1, T2, String.eqb_refl. reflexivity.
Qed.

Lemma up_to_date_no_notice_witness :
  Cli.checkVersion "1.2.10" patchRelease = ([Exec Cli.cmdVersion], Done tt) /\
  Legacy.checkVersion "1.2.10" patchRelease = ([Exec Legacy.cmdVersion], Done tt).
Proof.
  apply (up_to_date_no_notice "1.2.10" patchRelease); reflexivity.
Defined.

(** The original script keeps a failed commit to itself: it never writes
    to the error console and never ends in a rejection.  Whatever the
    commit command did, the script prints what the command wrote and then
    queries the registry. *)
Theorem legacy_commit_failure_is_silent :
  forall (version : string) (p : Legacy.program) (w : world),
    (forall a, ~ In (ConsoleError a) (trace (Legacy.script version p w))) /\
    (forall e, result (Legacy.script version p w) <> Thrown e) /\
    (forall command,
        In (Exec command) (trace (Legacy.script version p w)) ->
        isCommit command = true ->
        In (ConsoleLog [Str (child_stdout (shell w command))])
           (trace (Legacy.script version p w)) /\
        In (Exec Legacy.cmdVersion) (trace (Legacy.script version p w))).
Proof.
  intros version p w.
  destruct (legacy_script_shape version p w) as [pre [Hp [E|[cmd [Hc E]]]]]; rewrite E;
    cbn [trace result fst snd].
  - split; [|split].
    + intros a. apply (not_asking_not_In _ _ Hp). intros K; exact K.
    + discriminate.
    + intros command Hin. exfalso. revert Hin.
      apply (not_asking_not_In _ _ Hp). intros K; exact K.
  - rewrite legacy_makeCommit_run. cbn [trace fst]. split; [|split].
    + intros a Hin. apply in_app_or in Hin. destruct Hin as [Hin|Hin].
      * revert Hin. apply (not_asking_not_In _ _ Hp). intros K; exact K.
      * destruct Hin as [K|[K|[K|Hin]]]; try discriminate.
        destruct (Legacy.outdated _ _); [destruct Hin as [K|[]]; discriminate|destruct Hin].
    + discriminate.
    + intros command Hin C. apply in_app_or in Hin. destruct Hin as [Hin|Hin].
      * exfalso. revert Hin. apply (not_asking_not_In _ _ Hp). intros K; exact K.
      * assert (command = cmd).
        { destruct Hin as [K|[K|[K|Hin]]]; try discriminate.
          - now injection K.
          - injection K as <-. discriminate.
          - destruct (Legacy.outdated _ _); [destruct Hin as [K|[]]; discriminate|destruct Hin]. }
        subst command. split; apply in_or_app; right.
        -- right. left. reflexivity.
        -- right. right. left. reflexivity.
Qed.

Lemma legacy_commit_failure_is_silent_witness :
  In (Exec Legacy.cmdVersion)
     (trace (Legacy.script "1.2.9" (only Bug ["wip"]) commitRefused)) /\
  child_error (shell commitRefused (Legacy.commitCommand "🐛  BUG" "wip"))
    = Some {| code := CodeNum 1 |}.
Proof.
  split; [|reflexivity].
  apply (proj2 (proj2 (legacy_commit_failure_is_silent
                         "1.2.9" (only Bug ["wip"]) commitRefused))
           (Legacy.commitCommand "🐛  BUG" "wip")).
  - vm_compute. tauto.
  - reflexivity.
Defined.

(** In the original script the type prompt and the flags agree: with a
    message on the command line, picking the entry of a type at the
    prompt commits by the same command as the flag of that type. *)
Theorem legacy_prompt_agrees_with_flag :
  forall (version : string) (f : flag) (words : list string) (w : world),
    JS.truthy (hd_error words) = true ->
    pick w = entryOf f ->
    commitsOf (trace (Legacy.script version (noFlag words) w)) =
      [Legacy.commitCommand (labelOf f) (JS.join words)] /\
    commitsOf (trace (Legacy.script version (only f words) w)) =
      [Legacy.commitCommand (labelOf f) (JS.join words)].
Proof.
  intros version f words w T P. split.
  - change (Legacy.script version (noFlag words) w)
      with (Legacy.interactive version (noFlag words) w).
    rewrite (interactive_message_run version (noFlag words) w T), P, legacy_makeCommit_run.
    cbn [trace fst commitsOf Legacy.args noFlag].
    replace (cleaned (nth (entryOf f) Legacy.choices (hd EmptyString Legacy.choices)))
      with (labelOf f) by (destruct f; reflexivity).
    change (isCommit (Legacy.commitCommand (labelOf f) (JS.join words))) with true.
    cbv iota. destruct (Legacy.outdated _ _); reflexivity.
  - destruct f; unfold Legacy.script, only; cbn [Legacy.style Legacy.bug Legacy.improve
      Legacy.release Legacy.new Legacy.doc Legacy.try Legacy.test Legacy.args labelOf];
      rewrite legacy_makeCommit_run; cbn [trace fst];
      destruct (Legacy.outdated _ _); reflexivity.
Qed.

Lemma legacy_prompt_agrees_with_flag_witness :
  commitsOf (trace (Legacy.script "1.2.9" (noFlag ["fix"; "typo"])
                      (sample (succeeds "") (succeeds "") (succeeds "1.2.9") true 0 []))) =
    [Legacy.commitCommand "🐛  BUG" "fix,typo"] /\
  commitsOf (trace (Legacy.script "1.2.9" (only Bug ["fix"; "typo"])
                      (sample (succeeds "") (succeeds "") (succeeds "1.2.9") true 0 []))) =
    [Legacy.commitCommand "🐛  BUG" "fix,typo"].
Proof.
  apply (legacy_prompt_agrees_with_flag
           "1.2.9" Bug ["fix"; "typo"]
           (sample (succeeds "") (succeeds "") (succeeds "1.2.9") true 0 []));
    reflexivity.
Defined.

(** With a flag the original script asks nothing and checks nothing: the
    first flag that is set, in the order the script tests them, decides;
    the run is the run with that flag alone, and the words of the command
    line are committed as they are, even when there are none. *)
Theorem legacy_flag_skips_the_prompts :
  forall (version : string) (p : Legacy.program) (w : world) (f : flag),
    isSet f p = true ->
    (forall g, rank g < rank f -> isSet g p = false) ->
    Legacy.script version p w = Legacy.script version (only f (Legacy.args p)) w /\
    Forall (fun e => ~ isPrompt e) (trace (Legacy.script version p w)) /\
    In (Exec (Legacy.commitCommand (labelOf f) (JS.join (Legacy.args p))))
       (trace (Legacy.script version p w)).
Proof.
  intros version p w f S H.
  pose proof (H Style) as H0. pose proof (H Bug) as H1. pose proof (H Improve) as H2.
  pose proof (H Release) as H3. pose proof (H New) as H4. pose proof (H Doc) as H5.
  pose proof (H Try) as H6. pose proof (H Test) as H7. clear H.
  assert (E : Legacy.script version p w =
              Legacy.makeCommit version
                (Legacy.commitCommand (labelOf f) (JS.join (Legacy.args p))) w /\
              Legacy.script version (only f (Legacy.args p)) w =
              Legacy.makeCommit version
                (Legacy.commitCommand (labelOf f) (JS.join (Legacy.args p))) w).
  { destruct f; cbn [rank isSet labelOf] in *;
      repeat match goal with
             | K : ?a < ?b -> _ |- _ =>
                 first [ specialize (K ltac:(lia)) | clear K ]
             end;
      unfold Legacy.script, only;
      cbn [Legacy.style Legacy.bug Legacy.improve Legacy.release Legacy.new Legacy.doc
             Legacy.try Legacy.test Legacy.args];
      repeat match goal with
             | K : _ = false |- _ => rewrite K; clear K
             end;
      rewrite S; split; reflexivity. }
  destruct E as [E1 E2]. rewrite E2, E1.
  destruct (legacy_makeCommit_shape version
              (Legacy.commitCommand (labelOf f) (JS.join (Legacy.args p))) w)
    as [tail [Em Ht]].
  rewrite Em. cbn [trace fst]. split; [reflexivity|split].
  - constructor; [intros []|].
    revert Ht. apply Forall_impl. intros [] K; cbn in *; tauto.
  - left. reflexivity.
Qed.

Lemma legacy_flag_skips_the_prompts_witness :
  In (Exec (Legacy.commitCommand "💅  STYLE" ""))
     (trace (Legacy.script "1.2.9"
               {| Legacy.style := true; Legacy.bug := true; Legacy.improve := false;
                  Legacy.release := false; Legacy.new := false; Legacy.doc := false;
                  Legacy.try := false; Legacy.test := false; Legacy.args := [] |}
               commitAccepted)).
Proof.
  apply (legacy_flag_skips_the_prompts
           "1.2.9"
           {| Legacy.style := true; Legacy.bug := true; Legacy.improve := false;
              Legacy.release := false; Legacy.new := false; Legacy.doc := false;
              Legacy.try := false; Legacy.test := false; Legacy.args := [] |}
           commitAccepted Style).
  - reflexivity.
  - intros g L. destruct g; cbn in L; lia.
Defined.

(** When the registry query prints nothing (npm failed or is offline),
    the original script still compares: an installed version that is a
    word of two characters or more differs, without its last character,
    from the empty text, and every run that commits prints an update
    notice that names no version. *)
Theorem legacy_notice_when_registry_is_silent :
  forall (version : string) (p : Legacy.program) (w : world) (command : string),
    child_stdout (shell w Legacy.cmdVersion) = "" ->
    word version = true ->
    2 <= String.length version ->
    In (Exec command) (trace (Legacy.script version p w)) ->
    isCommit command = true ->
    In (ConsoleLog (Legacy.updateNotice "")) (trace (Legacy.script version p w)).
Proof.
  intros version p w command O W L Hin C.
  assert (U : Legacy.outdated version "" = true).
  { unfold Legacy.outdated. change (JS.slice_0_m1 (JS.trim "")) with "".
    destruct (word_starts version W) as [S1 S2].
    rewrite (proj1 (trim_visible version S1 S2)).
    destruct (String.eqb_spec (JS.slice_0_m1 version) "") as [E|E]; [|reflexivity].
    exfalso. exact (slice_word _ W L E). }
  destruct (legacy_script_shape version p w) as [pre [Hp [E|[cmd [_ E]]]]];
    rewrite E in *; cbn [trace fst] in *.
  - exfalso. revert Hin. apply (not_asking_not_In _ _ Hp). intros K; exact K.
  - rewrite legacy_makeCommit_run, O, U. cbn [trace fst].
    apply in_or_app. right. right. right. right. left. reflexivity.
Qed.

Lemma legacy_notice_when_registry_is_silent_witness :
  In (ConsoleLog (Legacy.updateNotice ""))
     (trace (Legacy.script "1.2.9" (only Bug ["wip"])
               (sample (succeeds "") (succeeds "") (fails 1) true 0 []))).
Proof.
  apply (legacy_notice_when_registry_is_silent
           "1.2.9" (only Bug ["wip"])
           (sample (succeeds "") (succeeds "") (fails 1) true 0 [])
           (Legacy.commitCommand "🐛  BUG" "wip")).
  - reflexivity.
  - reflexivity.
  - vm_compute. lia.
  - vm_compute. tauto.
  - reflexivity.
Defined.

(** The confirmation for node_modules is asked only when a staged path
    contains that text, anywhere in it: no run shows the prompt when no
    path of the listing does. *)
Theorem node_modules_prompt_only_when_staged :
  forall (version : string) (opts : Cli.options) (args : list string) (w : world)
         (stagedFiles : list string) (answer : bool),
    result (Cli.getStagedFiles w) = Done stagedFiles ->
    In (AskConfirm Cli.msgNodeModules answer) (trace (Cli.main version opts args w)) ->
    exists file before after,
      In file stagedFiles /\ file = before ++ "node_modules" ++ after.
Proof.
  intros version opts args w stagedFiles answer Hs Hin.
  apply hasNodeModules_spec.
  destruct (Cli.hasNodeModules stagedFiles) eqn:N; [reflexivity|exfalso].
  rewrite main_run, Hs in Hin. unfold gate1 in Hin. rewrite N in Hin.
  cbn [andb app] in Hin.
  assert (G2 : ~ In (AskConfirm Cli.msgNodeModules answer) (gate2 stagedFiles w)).
  { unfold gate2. destruct (_ <? _)%nat; [|intros []].
    intros [H|[]].
    apply (f_equal (fun e => match e with AskConfirm m _ => m | _ => EmptyString end)) in H.
    cbv beta iota in H. exact (msgManyFiles_not_msgNodeModules _ H). }
  destruct (Cli.learn opts); [destruct Hin as [K|[]]; discriminate|].
  destruct (length stagedFiles =? 0)%nat; [destruct Hin as [K|[K|[]]]; discriminate|].
  destruct (_ && _); cbn [trace fst] in Hin; destruct Hin as [K|Hin]; try discriminate;
    apply in_app_or in Hin; destruct Hin as [Hin|Hin]; try exact (G2 Hin).
  - destruct Hin as [K|[]]. discriminate.
  - exact (mainMessage_no_confirm version args w _ _ Hin).
Qed.

Lemma node_modules_prompt_only_when_staged_witness :
  exists file before after,
    In file ["node_modules/left-pad/index.js"; "src/cli.ts"] /\
    file = before ++ "node_modules" ++ after.
Proof.
  apply (node_modules_prompt_only_when_staged
           "1.2.9" plain ["wip"] vendoredDeclined
           ["node_modules/left-pad/index.js"; "src/cli.ts"] false).
  - reflexivity.
  - vm_compute. tauto.
Defined.

(** The original script without a flag and without a message asks for
    the type first and for the message second, answers every empty line
    with the complaint, and commits the first line that is not empty
    under the label of the entry picked. *)
Theorem legacy_first_line_typed_is_committed :
  forall (version : string) (p : Legacy.program) (w : world)
         (empties : list string) (line : string) (rest : list string),
    Legacy.style p = false -> Legacy.bug p = false -> Legacy.improve p = false ->
    Legacy.release p = false -> Legacy.new p = false -> Legacy.doc p = false ->
    Legacy.try p = false -> Legacy.test p = false ->
    JS.truthy (hd_error (Legacy.args p)) = false ->
    typed w = (empties ++ line :: rest)%list ->
    (forall l, In l empties -> l = "") ->
    line <> "" ->
    Legacy.script version p w =
      ((ConsoleLog [Str Legacy.msgPick] ::
        AskList Legacy.msgCommitType
                (nth (pick w) Legacy.choices (hd EmptyString Legacy.choices)) ::
        AskInput Legacy.msgCommitMessage ::
        flat_map (fun l => [Typed l; ConsoleLog [Str Legacy.msgInvalid]]) empties ++
        Typed line ::
        trace (Legacy.makeCommit version
                 (Legacy.commitCommand
                    (cleaned (nth (pick w) Legacy.choices (hd EmptyString Legacy.choices)))
                    line) w))%list,
       Done tt).
Proof.
  intros version p w empties line rest F1 F2 F3 F4 F5 F6 F7 F8 T Ht He Hl.
  unfold Legacy.script. rewrite F1, F2, F3, F4, F5, F6, F7, F8.
  unfold Legacy.interactive. rewrite T. cbn [negb orb].
  set (c := nth (pick w) Legacy.choices (hd EmptyString Legacy.choices)).
  rewrite (bind_done _ _ w [ConsoleLog [Str Legacy.msgPick]] tt eq_refl).
  rewrite (bind_done (Inquirer.promptList Legacy.msgCommitType Legacy.choices) _ w
             [AskList Legacy.msgCommitType c] c eq_refl).
  fold (cleaned c).
  pose proof (promptInput_run Legacy.msgCommitMessage w) as P.
  rewrite Ht, (inputLoop_first_line empties line rest w He Hl) in P.
  cbn [trace result fst snd] in P. rewrite <- legacy_validate in P.
  destruct (legacy_makeCommit_shape version (Legacy.commitCommand (cleaned c) line) w)
    as [tail [Em _]].
  erewrite bind_done; [|erewrite bind_done; [|exact P]; rewrite Em; reflexivity].
  rewrite Em. cbn [trace result fst snd ret app]. rewrite app_nil_r.
  f_equal. f_equal. f_equal. f_equal. now rewrite <- app_assoc.
Qed.

Lemma legacy_first_line_typed_is_committed_witness :
  Legacy.script "1.2.9" (noFlag []) commitAccepted =
  ([ ConsoleLog [Str Legacy.msgPick];
     AskList Legacy.msgCommitType "⚡  IMPROVE: refactoring";
     AskInput Legacy.msgCommitMessage;
     Typed ""; ConsoleLog [Str Legacy.msgInvalid];
     Typed "wip";
     Exec (Legacy.commitCommand "⚡  IMPROVE" "wip");
     ConsoleLog [Str "[main 1a2b3c4] done"];
     Exec Legacy.cmdVersion ], Done tt).
Proof.
  assert (E : forall l, In l [""] -> l = "") by (intros l [<-|[]]; reflexivity).
  assert (N : "wip" <> "") by discriminate.
  exact (legacy_first_line_typed_is_committed
           "1.2.9" (noFlag []) commitAccepted [""] "wip" []
           eq_refl eq_refl eq_refl eq_refl eq_refl eq_refl eq_refl eq_refl
           eq_refl eq_refl E N).
Defined.
